(** * Mason (pytmx/mason_original.py): a shallow embedding and its properties

    The module reads Tiled TMX maps: an event source yields start/end
    events, [slurp] keeps a stack of tokens, every token class declares an
    attribute schema and [add_<tag>] methods, and [DataToken.end] decodes the
    tile data of a layer.

    Conventions of the embedding:
    - Python exceptions are the constructors of [exn]; a function that may
      raise returns a [result];
    - Python integers are [Z], strings are [string] (ASCII), [bytes] are
      [list byte];
    - Python floats and the library codecs (base64, zlib, gzip) are not
      part of the module: they are the operations of the classes [FloatOps]
      and [Codecs];
    - a Python object is a [value]; a token is its class and its instance
      dictionary, a [dict] is an association list in insertion order. *)

From Stdlib Require Import ZArith Lia String Ascii List.
From Stdlib.Strings Require Import Byte.
From stdpp Require Import base list strings pretty.

Set Warnings "-register-all".

Local Open Scope string_scope.
Local Open Scope list_scope.
Local Open Scope Z_scope.

(** ** Exceptions and results *)

Inductive exn : Type :=
| UnsupportedFeature (args : list string)
| KeyError (key : string)
| AttributeError
| TypeError
| ValueError
| OverflowError
| IndexError
| NameError (name : string)
| StructError
| RecursionError
| CodecError
| Exception_ (msg : string).

Inductive result (A : Type) : Type :=
| Ok (a : A)
| Err (e : exn).

Arguments Ok {A} a.
Arguments Err {A} e.

#[global] Instance result_ret : MRet result := fun A a => Ok a.
#[global] Instance result_bind : MBind result := fun A B f m =>
  match m with
  | Ok a => f a
  | Err e => Err e
  end.

#[global] Instance result_fmap : FMap result := fun A B f m =>
  match m with
  | Ok a => Ok (f a)
  | Err e => Err e
  end.

Definition is_ok {A} (r : result A) : bool :=
  match r with Ok _ => true | Err _ => false end.

(** [try: ... except KeyError: handler] *)
Definition except_KeyError {A} (body : result A) (handler : result A) : result A :=
  match body with
  | Err (KeyError _) => handler
  | r => r
  end.

(** [try: ... except AttributeError: handler] *)
Definition except_AttributeError {A} (body : result A) (handler : result A) : result A :=
  match body with
  | Err AttributeError => handler
  | r => r
  end.

(** ** Module constants *)

Definition GID_TRANS_FLIPX : Z := Z.shiftl 1 31.
Definition GID_TRANS_FLIPY : Z := Z.shiftl 1 30.
Definition GID_TRANS_ROT : Z := Z.shiftl 1 29.

Record TileFlags : Type := mkTileFlags {
  flipped_horizontally : bool;
  flipped_vertically : bool;
  flipped_diagonally : bool
}.

(** ** decode_gid *)

(** The [flags] local of [decode_gid]. *)
Definition decode_gid_flags (raw_gid : Z) : TileFlags :=
  mkTileFlags
    (Z.land raw_gid GID_TRANS_FLIPX =? GID_TRANS_FLIPX)
    (Z.land raw_gid GID_TRANS_FLIPY =? GID_TRANS_FLIPY)
    (Z.land raw_gid GID_TRANS_ROT =? GID_TRANS_ROT).

(** [decode_gid] builds [flags], masks the three bits out and returns
    [gid] alone. *)
Definition decode_gid (raw_gid : Z) : Z :=
  let flags := decode_gid_flags raw_gid in
  let gid :=
    Z.land raw_gid
      (Z.lnot (Z.lor (Z.lor GID_TRANS_FLIPX GID_TRANS_FLIPY) GID_TRANS_ROT)) in
  gid.

(** ** calc_bounds, on integer coordinates *)

Record bounds_acc : Type := mkAcc { bx1 : Z; bx2 : Z; by1 : Z; by2 : Z }.

(** One turn of the [for x, y in points] loop. *)
Definition calc_bounds_step (a : bounds_acc) (p : Z * Z) : bounds_acc :=
  let '(x, y) := p in
  let '(x1, x2) :=
    if x <? bx1 a then (x, bx2 a)
    else if x >? bx2 a then (bx1 a, x)
    else (bx1 a, bx2 a) in
  let '(y1, y2) :=
    if y <? by1 a then (y, by2 a)
    else if y >? by2 a then (by1 a, y)
    else (by1 a, by2 a) in
  mkAcc x1 x2 y1 y2.

Definition calc_bounds (points : list (Z * Z)) : Z * Z :=
  let a := fold_left calc_bounds_step points (mkAcc 0 0 0 0) in
  (Z.abs (bx1 a) + Z.abs (bx2 a), Z.abs (by1 a) + Z.abs (by2 a)).

(** Following the spec's words: the extent of the coordinates [cs] on one
    axis, measured from the origin in both directions. *)
Definition origin_extent (cs : list Z) : Z :=
  Z.abs (foldr Z.min 0 cs) + Z.abs (foldr Z.max 0 cs).

(** ** Strings *)

(** [str.isspace] on an ASCII character: tab, LF, VT, FF, CR, the four
    separators 28..31 and the space. *)
Definition is_space (c : ascii) : bool :=
  let n := nat_of_ascii c in
  ((9 <=? n) && (n <=? 13) || (28 <=? n) && (n <=? 32))%nat.

Fixpoint lstrip (s : string) : string :=
  match s with
  | String c r => if is_space c then lstrip r else s
  | EmptyString => EmptyString
  end.

(** Drops trailing whitespace. *)
Fixpoint rstrip (s : string) : string :=
  match s with
  | String c r =>
      match rstrip r with
      | EmptyString => if is_space c then EmptyString else String c EmptyString
      | r' => String c r'
      end
  | EmptyString => EmptyString
  end.

(** [s.strip()] *)
Definition strip (s : string) : string := rstrip (lstrip s).

Definition lower_ascii (c : ascii) : ascii :=
  let n := nat_of_ascii c in
  if ((65 <=? n) && (n <=? 90))%nat then ascii_of_nat (n + 32) else c.

(** [s.lower()] *)
Fixpoint lower (s : string) : string :=
  match s with
  | String c r => String (lower_ascii c) (lower r)
  | EmptyString => EmptyString
  end.

(** [s.split(sep)] for a one-character separator: empty fields are kept
    and the result is never empty. *)
Fixpoint split_on (sep : ascii) (s : string) : list string :=
  match s with
  | EmptyString => [EmptyString]
  | String c r =>
      if Ascii.eqb c sep then EmptyString :: split_on sep r
      else match split_on sep r with
           | w :: ws => String c w :: ws
           | [] => [String c EmptyString]
           end
  end.

(** [s.split()]: fields separated by runs of whitespace, none empty. *)
Fixpoint split_ws_go (cur : string) (s : string) : list string :=
  let flush := match cur with EmptyString => [] | _ => [String.rev cur] end in
  match s with
  | EmptyString => flush
  | String c r =>
      if is_space c then flush ++ split_ws_go EmptyString r
      else split_ws_go (String c cur) r
  end.

Definition split_ws (s : string) : list string := split_ws_go EmptyString s.

(** ["".join(i.strip() for i in s)]: every character is stripped on its
    own, so whitespace characters vanish. *)
Fixpoint join_stripped_chars (s : string) : string :=
  match s with
  | EmptyString => EmptyString
  | String c r => strip (String c EmptyString) +:+ join_stripped_chars r
  end.

(** ** int(str) *)

Definition digit_of (c : ascii) : option Z :=
  let n := nat_of_ascii c in
  if ((48 <=? n) && (n <=? 57))%nat then Some (Z.of_nat (n - 48)) else None.

(** Digits with single underscores between them; [prev] tells whether the
    previous character was a digit. *)
Fixpoint parse_digits (acc : Z) (prev : bool) (s : string) : option Z :=
  match s with
  | EmptyString => if prev then Some acc else None
  | String c r =>
      match digit_of c with
      | Some d => parse_digits (10 * acc + d) true r
      | None =>
          if Ascii.eqb c "_"%char && prev then parse_digits acc false r
          else None
      end
  end.

(** [int(s)] in base 10: surrounding whitespace and one sign are allowed. *)
Definition int_of_str (s : string) : result Z :=
  let body := strip s in
  let '(neg, ds) :=
    match body with
    | String "-"%char r => (true, r)
    | String "+"%char r => (false, r)
    | _ => (false, body)
    end in
  match parse_digits 0 false ds with
  | Some n => Ok (if neg then - n else n)
  | None => Err ValueError
  end.

(** [str(n)] of an integer. *)
Definition str_of_int (n : Z) : string := pretty n.

(** ** What the module imports *)

(** Python's [float]: the casts the module applies to it and the addition
    of [move_points]. *)
Class FloatOps : Type := {
  float : Type;
  float_of_str : string -> option float;   (* float(s); None: ValueError *)
  float_of_int : Z -> option float;        (* float(n); None: OverflowError *)
  float_of_bool : bool -> float;           (* 0.0 and 1.0 *)
  float_add : float -> float -> float;
  float_trunc : float -> result Z;         (* int(x) *)
  float_nonzero : float -> bool;           (* bool(x) *)
  float_str : float -> string              (* str(x) *)
}.

(** [base64.b64decode], [zlib.decompress] and reading a [gzip.GzipFile],
    each on a byte string. *)
Class Codecs : Type := {
  b64decode : list byte -> result (list byte);
  zlib_decompress : list byte -> result (list byte);
  gzip_read : list byte -> result (list byte)
}.

(** ** Ranges and slices *)

(** [range(n)] *)
Definition py_range (n : Z) : list Z :=
  Z.of_nat <$> seq 0 (Z.to_nat n).

(** [range(0, stop, step)] for a positive [step]. *)
Definition py_range_step (stop step : Z) : list Z :=
  (fun k => Z.of_nat k * step) <$> seq 0 (Z.to_nat ((stop + step - 1) / step)).

(** How a slice bound is clamped into [0 .. len]. *)
Definition slice_index (len i : Z) : Z :=
  if i <? 0 then Z.max (i + len) 0 else Z.min i len.

(** [l[lo:hi]] *)
Definition py_slice {A} (l : list A) (lo hi : Z) : list A :=
  let len := Z.of_nat (length l) in
  let a := slice_index len lo in
  let b := slice_index len hi in
  take (Z.to_nat (b - a)) (drop (Z.to_nat a) l).

(** [mapM] of the [result] monad: the first error stops the traversal. *)
Fixpoint mapR {A B} (f : A -> result B) (l : list A) : result (list B) :=
  match l with
  | [] => Ok []
  | x :: r => y ← f x; ys ← mapR f r; Ok (y :: ys)
  end.

(** ** Token classes *)

Inductive token_class : Type :=
| Token | AnimationToken | ChunkToken | DataToken | EllipseToken | FrameToken
| GridToken | GroupToken | ImagelayerToken | ImageToken | LayerToken | MapToken
| ObjectgroupToken | ObjectToken | PointToken | PolygonToken | PolylineToken
| PropertiesToken | PropertyToken | TemplateToken | TerrainToken
| TerraintypesToken | TextToken | TileOffsetToken | TilesetSourceToken
| TilesetToken | TileToken.

#[global] Instance token_class_eq_dec : EqDecision token_class.
Proof. solve_decision. Defined.

(** [cls.__name__] *)
Definition class_name (c : token_class) : string :=
  match c with
  | Token => "Token" | AnimationToken => "AnimationToken"
  | ChunkToken => "ChunkToken" | DataToken => "DataToken"
  | EllipseToken => "EllipseToken" | FrameToken => "FrameToken"
  | GridToken => "GridToken" | GroupToken => "GroupToken"
  | ImagelayerToken => "ImagelayerToken" | ImageToken => "ImageToken"
  | LayerToken => "LayerToken" | MapToken => "MapToken"
  | ObjectgroupToken => "ObjectgroupToken" | ObjectToken => "ObjectToken"
  | PointToken => "PointToken" | PolygonToken => "PolygonToken"
  | PolylineToken => "PolylineToken" | PropertiesToken => "PropertiesToken"
  | PropertyToken => "PropertyToken" | TemplateToken => "TemplateToken"
  | TerrainToken => "TerrainToken" | TerraintypesToken => "TerraintypesToken"
  | TextToken => "TextToken" | TileOffsetToken => "TileOffsetToken"
  | TilesetSourceToken => "TilesetSourceToken" | TilesetToken => "TilesetToken"
  | TileToken => "TileToken"
  end.

Definition all_classes : list token_class :=
  [Token; AnimationToken; ChunkToken; DataToken; EllipseToken; FrameToken;
   GridToken; GroupToken; ImagelayerToken; ImageToken; LayerToken; MapToken;
   ObjectgroupToken; ObjectToken; PointToken; PolygonToken; PolylineToken;
   PropertiesToken; PropertyToken; TemplateToken; TerrainToken;
   TerraintypesToken; TextToken; TileOffsetToken; TilesetSourceToken;
   TilesetToken; TileToken].

(** ** Association lists as dictionaries *)

Section Dict.
Context {K V : Type} `{EqDecision K}.

Fixpoint dict_get (d : list (K * V)) (k : K) : option V :=
  match d with
  | [] => None
  | (k', v) :: r => if decide (k' = k) then Some v else dict_get r k
  end.

(** [d[k] = v]: an existing key keeps its place, a new one goes last. *)
Fixpoint dict_set (d : list (K * V)) (k : K) (v : V) : list (K * V) :=
  match d with
  | [] => [(k, v)]
  | (k', v') :: r =>
      if decide (k' = k) then (k, v) :: r else (k', v') :: dict_set r k v
  end.

(** [d.update(e)] *)
Definition dict_update (d e : list (K * V)) : list (K * V) :=
  fold_left (fun acc kv => dict_set acc kv.1 kv.2) e d.
End Dict.

(** Keys of a dictionary of properties: a name, or [None] when the
    property has none. *)
Inductive dkey : Type :=
| KNone
| KStr (s : string).

#[global] Instance dkey_eq_dec : EqDecision dkey.
Proof. solve_decision. Defined.

Section Mason.
Context {FO : FloatOps} {CO : Codecs}.

(** ** Python objects *)

Inductive value : Type :=
| VNone
| VBool (b : bool)
| VInt (n : Z)
| VFloat (x : float)
| VStr (s : string)
| VTuple (items : list value)
| VList (items : list value)
| VDict (d : list (dkey * value))
| VArrayH (items : list Z)              (* array.array("H", ...) *)
| VAttrTypes (c : token_class)          (* the attrib_types of an instance *)
| VToken (c : token_class) (d : list (string * value)).
                                        (* an instance and its __dict__ *)

(** The data that flows through [unpack]: the text of the node, a byte
    string, or the iterator [map(int, fields)] of [decode_csv], which has
    converted nothing yet. *)
Inductive payload : Type :=
| PStr (s : string)
| PBytes (b : list byte)
| PMapInt (fields : list string).

(** ** Attribute schemas *)

Inductive caster : Type :=
| C_str | C_int | C_float | C_bool | C_noop | C_read_points.

(** A raw attribute value or a declared default. *)
Inductive scalar : Type :=
| SNone
| SBool (b : bool)
| SInt (n : Z)
| SFloat (x : float)
| SStr (s : string).

Definition of_scalar (v : scalar) : value :=
  match v with
  | SNone => VNone
  | SBool b => VBool b
  | SInt n => VInt n
  | SFloat x => VFloat x
  | SStr s => VStr s
  end.

(** [Attr = namedtuple("Attribute", ("name", "cls", "default", "comment"))] *)
Record Attr : Type := mkAttr {
  name : string;
  cls : caster;
  default : scalar;
  comment : string
}.

(** The literal [1.0]. *)
Definition float_1_0 : float := float_of_bool true.

Definition Color := mkAttr "color" C_str SNone "color of the thing".
Definition Opacity := mkAttr "opacity" C_float (SFloat float_1_0) "opacity".
Definition Visible := mkAttr "visible" C_bool (SBool true) "visible, or not".

(** The [attributes] of each class.  [TerrainToken] and [TextToken] spell
    theirs [Attributes], so what they inherit is the empty list of
    [Token]. *)
Definition attributes (c : token_class) : list Attr :=
  match c with
  | ChunkToken =>
      [mkAttr "x" C_int SNone "x tile coord of chunk";
       mkAttr "y" C_int SNone "y tile coord of chunk";
       mkAttr "width" C_int SNone "tile width of chunk";
       mkAttr "height" C_int SNone "x tile height of chunk"]
  | DataToken =>
      [mkAttr "encoding" C_str SNone "base64, csv, None";
       mkAttr "compression" C_str SNone "gzip, zip, None"]
  | FrameToken =>
      [mkAttr "tileid" C_int SNone "local id within parent tileset";
       mkAttr "duration" C_int SNone "duration in milliseconds"]
  | GridToken | GroupToken =>
      [mkAttr "name" C_str SNone "name of group";
       mkAttr "offsetx" C_int (SInt 0) "pixel offset, applied to all descendants";
       mkAttr "offsety" C_int (SInt 0) "pixel offset, applied to all descendants";
       Visible; Opacity]
  | ImagelayerToken =>
      [mkAttr "name" C_str (SStr "ImageLayer") "name of layer";
       mkAttr "offsetx" C_int (SInt 0) "not used, per spec.";
       mkAttr "offsety" C_int (SInt 0) "not used, per spec.";
       Visible; Opacity]
  | ImageToken =>
      [mkAttr "format" C_str SNone "png, jpg, etc";
       mkAttr "source" C_str SNone "path, relative to the map";
       mkAttr "trans" C_str SNone "transparent color";
       mkAttr "width" C_int SNone "pixel width, optional";
       mkAttr "height" C_int SNone "pixel height, optional"]
  | LayerToken =>
      [mkAttr "name" C_str (SStr "TileLayer") "name of layer";
       mkAttr "width" C_int SNone "tile width";
       mkAttr "height" C_int SNone "tile height";
       mkAttr "offsetx" C_int (SInt 0) "Not used, per spec";
       mkAttr "offsety" C_int (SInt 0) "Not used, per spec";
       Visible; Opacity]
  | MapToken =>
      [mkAttr "version" C_str SNone "TMX format version";
       mkAttr "tiledversion" C_str SNone "software version";
       mkAttr "orientation" C_str (SStr "orthogonal") "map orientation";
       mkAttr "renderorder" C_str (SStr "right-down") "order of tiles to be drawn";
       mkAttr "compressionlevel" C_int (SInt (-1))
         "The compression level to use for tile layer data";
       mkAttr "width" C_int SNone "map width in tiles";
       mkAttr "height" C_int SNone "map height in tiles";
       mkAttr "tilewidth" C_int SNone "pixel width of tile";
       mkAttr "tileheight" C_int SNone "pixel height of tile";
       mkAttr "hexsidelength" C_float SNone "[hex map] length of hex tile edge";
       mkAttr "staggeraxis" C_str SNone "[hex map] x/y axis is staggered";
       mkAttr "staggerindex" C_str SNone "[hex map] even/odd staggered axis";
       mkAttr "backgroundcolor" C_str SNone "background color of map";
       mkAttr "nextlayerid" C_int SNone "ID of the next layer";
       mkAttr "nextobjectid" C_int SNone "the next gid available to use";
       mkAttr "infinite" C_bool (SBool false) "infinite map"]
  | ObjectgroupToken =>
      [mkAttr "name" C_str SNone "name of group";
       mkAttr "x" C_float (SInt 0) "not used, per spec";
       mkAttr "y" C_float (SInt 0) "not used, per spec";
       mkAttr "width" C_int SNone "not used, per spec";
       mkAttr "height" C_int SNone "not used, per spec";
       Color; Visible; Opacity]
  | ObjectToken =>
      [mkAttr "name" C_str SNone "name of object";
       mkAttr "id" C_int SNone "unique id assigned to object";
       mkAttr "type" C_str SNone "defined by editor";
       mkAttr "x" C_float SNone "tile x coordinate";
       mkAttr "y" C_float SNone "tile y coordinate";
       mkAttr "width" C_float SNone "pixel width";
       mkAttr "height" C_float SNone "pixel height";
       mkAttr "rotation" C_float (SInt 0) "rotation";
       mkAttr "gid" C_int SNone "reference a tile id";
       mkAttr "template" C_str SNone "path, optional";
       Visible; Opacity]
  | PolygonToken =>
      [mkAttr "points" C_read_points SNone "coordinates of the polygon"]
  | PolylineToken =>
      [mkAttr "points" C_read_points SNone "coordinates of the polyline"]
  | PropertyToken =>
      [mkAttr "type" C_noop SNone "type of the property";
       mkAttr "name" C_noop SNone "name of property";
       mkAttr "value" C_noop SNone "value"]
  | TileOffsetToken =>
      [mkAttr "x" C_int SNone "horizontal (left) tile offset";
       mkAttr "y" C_int SNone "vertical (down) tile offset"]
  | TilesetToken =>
      [mkAttr "firstgid" C_int SNone "first gid of tileset";
       mkAttr "source" C_str SNone "filename of external data or None";
       mkAttr "name" C_str SNone "name of tileset";
       mkAttr "tilewidth" C_int SNone "max width in tiles";
       mkAttr "tileheight" C_int SNone "max height in tiles";
       mkAttr "spacing" C_int (SInt 0) "pixels between each tile";
       mkAttr "margin" C_int (SInt 0) "pixels between tile and image edge";
       mkAttr "tilecount" C_int SNone "number of tiles in tileset";
       mkAttr "columns" C_int SNone "number of columns";
       mkAttr "objectalignment" C_str SNone "allignment of tile objects"]
  | TileToken =>
      [mkAttr "id" C_int SNone "local id";
       mkAttr "gid" C_int SNone "global id";
       mkAttr "type" C_str SNone "defined in editor";
       mkAttr "terrain" C_str SNone "optional";
       mkAttr "probability" C_float SNone "optional"]
  | Token | AnimationToken | EllipseToken | PointToken | PropertiesToken
  | TemplateToken | TerrainToken | TerraintypesToken | TextToken
  | TilesetSourceToken => []
  end.

(** [{item.name: item for item in attr}] *)
Definition attrib_types (c : token_class) : list (string * Attr) :=
  fold_left (fun acc item => dict_set acc (name item) item) (attributes c) [].

(** [tiled_property_type] *)
Definition tiled_property_type : list (string * caster) :=
  [("string", C_str); ("int", C_int); ("float", C_float);
   ("bool", C_bool); ("color", C_str); ("file", C_str)].

(** ** Truth values and casts *)

(** [bool(v)] *)
Definition truthy (v : value) : bool :=
  match v with
  | VNone => false
  | VBool b => b
  | VInt n => negb (n =? 0)
  | VFloat x => float_nonzero x
  | VStr s => negb (String.eqb s "")
  | VTuple l | VList l => negb (bool_decide (l = []))
  | VDict d => match d with [] => false | _ => true end
  | VArrayH l => match l with [] => false | _ => true end
  | VAttrTypes c => match attrib_types c with [] => false | _ => true end
  | VToken _ _ => true
  end.

(** [read_points]: [tuple(tuple(map(float, i.split(","))) for i in
    text.split())]; only a string has [split]. *)
Definition read_points (text : scalar) : result value :=
  match text with
  | SStr text =>
      VTuple <$>
        mapR (fun i =>
                VTuple <$>
                  mapR (fun f => match float_of_str f with
                                 | Some x => Ok (VFloat x)
                                 | None => Err ValueError
                                 end)
                       (split_on ","%char i))
             (split_ws text)
  | _ => Err AttributeError
  end.

(** A caster applied to a raw attribute value or to a default. *)
Definition apply_caster (c : caster) (v : scalar) : result value :=
  match c with
  | C_str =>
      Ok (VStr match v with
               | SNone => "None"
               | SBool b => if b then "True" else "False"
               | SInt n => str_of_int n
               | SFloat x => float_str x
               | SStr s => s
               end)
  | C_int =>
      match v with
      | SNone => Err TypeError
      | SBool b => Ok (VInt (if b then 1 else 0))
      | SInt n => Ok (VInt n)
      | SFloat x => VInt <$> float_trunc x
      | SStr s => VInt <$> int_of_str s
      end
  | C_float =>
      match v with
      | SNone => Err TypeError
      | SBool b => Ok (VFloat (float_of_bool b))
      | SInt n => match float_of_int n with
                  | Some x => Ok (VFloat x)
                  | None => Err OverflowError
                  end
      | SFloat x => Ok (VFloat x)
      | SStr s => match float_of_str s with
                  | Some x => Ok (VFloat x)
                  | None => Err ValueError
                  end
      end
  | C_bool => Ok (VBool (truthy (of_scalar v)))
  | C_noop => Ok (of_scalar v)
  | C_read_points => read_points v
  end.

(** ** The transforms of tile data *)

(** [bytes.strip()] strips space, tab, LF, CR, VT and FF. *)
Definition is_space_byte (b : byte) : bool :=
  let n := Byte.to_nat b in
  ((9 <=? n) && (n <=? 13) || (n =? 32))%nat.

Fixpoint lstrip_bytes (b : list byte) : list byte :=
  match b with
  | x :: r => if is_space_byte x then lstrip_bytes r else b
  | [] => []
  end.

Definition strip_bytes (b : list byte) : list byte :=
  reverse (lstrip_bytes (reverse (lstrip_bytes b))).

Definition decode_base64 (data : payload) : result payload :=
  match data with
  | PStr s => PBytes <$> b64decode (list_byte_of_string (strip s))
  | PBytes b => PBytes <$> b64decode (strip_bytes b)
  | PMapInt _ => Err AttributeError
  end.

(** [map(int, "".join(i.strip() for i in data.strip()).split(","))]: the
    [map] object is returned as it is, no field has been converted. *)
Definition decode_csv (data : payload) : result payload :=
  match data with
  | PStr s => Ok (PMapInt (split_on ","%char (join_stripped_chars (strip s))))
  | PBytes _ => Err AttributeError
  | PMapInt _ => Err AttributeError
  end.

(** What [list(...)] would find in the iterator of [decode_csv]. *)
Definition force_map_int (fields : list string) : result (list Z) :=
  mapR int_of_str fields.

Definition decompress_zlib (data : payload) : result payload :=
  match data with
  | PBytes b => PBytes <$> zlib_decompress b
  | _ => Err TypeError
  end.

Definition decompress_gzip (data : payload) : result payload :=
  match data with
  | PBytes b => PBytes <$> gzip_read b
  | _ => Err TypeError
  end.

(** The module-level names that start with [decode_] or [decompress_]:
    the ones [globals()[prefix + xform]] can reach.  [decode_gid] is one
    of them; on tile data, which is no integer, its [&] raises. *)
Definition globals_xform : list (string * (payload -> result payload)) :=
  [("decompress_zlib", decompress_zlib);
   ("decompress_gzip", decompress_gzip);
   ("decode_base64", decode_base64);
   ("decode_csv", decode_csv);
   ("decode_gid", fun _ => Err TypeError)].

(** [get_data_xform(prefix, exception)]: [None] is the result when
    [xform] is false; [prefix + xform] needs a string. *)
Definition get_data_xform (prefix : string) (exception : string -> exn)
    (data : payload) (xform : value) : result (option payload) :=
  if truthy xform then
    match xform with
    | VStr x =>
        xformer ← except_KeyError
          (match dict_get globals_xform (prefix +:+ x) with
           | Some f => Ok f
           | None => Err (KeyError (prefix +:+ x))
           end)
          (Err (exception x));
        Some <$> xformer data
    | _ => Err TypeError
    end
  else Ok None.

Definition decompress := get_data_xform "decompress_" (fun x => UnsupportedFeature [x]).
Definition decode := get_data_xform "decode_" (fun x => UnsupportedFeature [x]).

(** [unpack]: decode, then decompress; a [None] leaves the data as it is. *)
Definition unpack (data : payload) (encoding compression : value)
    : result payload :=
  fold_left
    (fun acc '(func, arg) =>
       data ← acc;
       temp ← func data arg;
       Ok (match temp with Some t => t | None => data end))
    [(decode, encoding); (decompress, compression)]
    (Ok data).

(** [struct.Struct("<L").unpack_from(data, i)[0]] on a byte string. *)
Definition unpack_from_L (data : list byte) (i : Z) : result Z :=
  match take 4 (drop (Z.to_nat i) data) with
  | [b0; b1; b2; b3] =>
      Ok (Z.of_N (Byte.to_N b0) + 256 * (Z.of_N (Byte.to_N b1)
          + 256 * (Z.of_N (Byte.to_N b2) + 256 * Z.of_N (Byte.to_N b3))))
  | _ => Err StructError
  end.

(** [unroll_layer_data]: [len] does not exist on a [map] object, and
    [unpack_from] reads bytes only. *)
Definition unroll_layer_data (data : payload) : result (list Z) :=
  match data with
  | PMapInt _ => Err TypeError
  | PStr s =>
      mapR (fun _ : Z => Err TypeError) (py_range_step (Z.of_nat (String.length s)) 4)
  | PBytes b =>
      mapR (fun i => decode_gid <$> unpack_from_L b i)
           (py_range_step (Z.of_nat (length b)) 4)
  end.

(** An integer operand: [int] or [bool]. *)
Definition as_int (v : value) : result Z :=
  match v with
  | VInt n => Ok n
  | VBool b => Ok (if b then 1 else 0)
  | _ => Err TypeError
  end.

(** An item of [array.array("H", items)]: an integer of 16 bits. *)
Definition array_H_item (v : value) : result Z :=
  n ← as_int v;
  if (0 <=? n) && (n <=? 65535) then Ok n else Err OverflowError.

(** [rowify]: row [i] is the slice [gids[i*w : i*w + w]] as an array of
    unsigned shorts; nothing compares [len(gids)] with [w * h].  [range]
    wants an integer [h], the slice bounds an integer [w]. *)
Definition rowify (gids : list value) (w h : value) : result value :=
  h' ← as_int h;
  VTuple <$>
    mapR (fun i =>
            w' ← as_int w;
            VArrayH <$> mapR array_H_item (py_slice gids (i * w') (i * w' + w')))
         (py_range h').

(** The rows of a result of [rowify], flattened in row-major order. *)
Definition flatten_rows (rows : value) : list Z :=
  match rows with
  | VTuple rs =>
      concat ((fun r => match r with VArrayH l => l | _ => [] end) <$> rs)
  | _ => []
  end.

(** ** Instances *)

(** A token: its class and its instance dictionary. *)
Record token : Type := mkToken {
  tok_class : token_class;
  tok_dict : list (string * value)
}.

Definition VTok (t : token) : value := VToken (tok_class t) (tok_dict t).

(** [self.<slot> = v] *)
Definition inst_set (self : token) (slot : string) (v : value) : token :=
  mkToken (tok_class self) (dict_set (tok_dict self) slot v).

(** What the [__init__] of a class adds after [Token.__init__]. *)
Definition init_slots (c : token_class) : list (string * value) :=
  match c with
  | AnimationToken => [("frames", VList [])]
  | DataToken => [("tiles", VList []); ("chunks", VList []); ("data", VNone)]
  | ImagelayerToken => [("image", VNone)]
  | LayerToken => [("data", VNone)]
  | MapToken => [("tilesets", VList []); ("layers", VList []); ("objectgroups", VList [])]
  | ObjectgroupToken => [("objects", VList [])]
  | ObjectToken => [("points", VList []); ("ellipse", VBool false)]
  | PropertiesToken => [("dictionary", VDict [])]
  | TemplateToken => [("tilesets", VList []); ("objects", VList [])]
  | TerraintypesToken => [("terrains", VList [])]
  | TilesetToken => [("image", VNone); ("tiles", VList [])]
  | TileToken => [("image", VNone)]
  | _ => []
  end.

(** [childtypes]: the name and a fresh [list()] or [dict()]. *)
Definition childtypes (c : token_class) : list (string * value) :=
  match c with
  | MapToken =>
      [("tilesets", VList []); ("layers", VList []); ("objectgroups", VList []);
       ("group", VList []); ("editorsettings", VDict [])]
  | _ => []
  end.

(** [cls()]: [Token.__init__], then the assignments of the class. *)
Definition construct (c : token_class) : token :=
  let base :=
    [("attrib", VDict []); ("properties", VDict []); ("attrib_types", VAttrTypes c)] in
  mkToken c (dict_update (dict_update base (childtypes c)) (init_slots c)).

(** ** Attribute lookup *)

(** [Token.__getattr__]: [self.attrib[name]], where a [KeyError] becomes
    an [AttributeError].  The properties are not consulted. *)
Definition Token___getattr__ (self : token) (name : string) : result value :=
  match dict_get (tok_dict self) "attrib" with
  | Some (VDict attrib) =>
      except_KeyError
        (match dict_get attrib (KStr name) with
         | Some v => Ok v
         | None => Err (KeyError name)
         end)
        (Err AttributeError)
  | Some _ => Err TypeError
  | None => Err RecursionError
  end.

(** The names a class body binds, its [add_] methods apart. *)
Definition class_body_names (c : token_class) : list string :=
  match c with
  | Token =>
      ["childtypes"; "attributes"; "__init__"; "__getattr__"; "as_object";
       "start"; "end"; "combine"]
  | AnimationToken => ["__init__"]
  | ChunkToken => ["attributes"]
  | DataToken => ["attributes"; "__init__"; "end"]
  | FrameToken | GridToken | GroupToken | PolygonToken | PolylineToken
  | TileOffsetToken => ["attributes"]
  | ImagelayerToken | LayerToken | ObjectgroupToken | ObjectToken | TileToken =>
      ["attributes"; "__init__"]
  | ImageToken => ["attributes"; "end"]
  | MapToken => ["attributes"; "childtypes"; "__init__"; "as_object"]
  | PropertiesToken | TemplateToken | TerraintypesToken => ["__init__"]
  | PropertyToken => ["attributes"; "__init__"; "start"]
  | TerrainToken | TextToken => ["Attributes"]
  | TilesetSourceToken => ["end"]
  | TilesetToken => ["attributes"; "__init__"; "end"; "load_tiles"]
  | EllipseToken | PointToken => []
  end.

(** The tags [t] for which a class body defines [add_t]. *)
Definition class_add_tags (c : token_class) : list string :=
  match c with
  | Token => ["properties"]
  | AnimationToken => ["frame"]
  | ChunkToken => ["tile"]
  | DataToken => ["tile"; "chunk"]
  | GroupToken => ["layer"; "objectgroup"; "imagelayer"; "group"]
  | ImagelayerToken => ["image"]
  | ImageToken => ["data"]
  | LayerToken => ["data"]
  | MapToken => ["tileset"; "layer"; "objectgroup"; "imagelayer"; "group"]
  | ObjectgroupToken => ["object"]
  | ObjectToken => ["ellipse"; "polygon"; "polyline"; "text"; "image"]
  | PropertiesToken => ["property"]
  | TemplateToken => ["terrain"; "object"]
  | TerraintypesToken => ["terrain"]
  | TilesetToken =>
      ["tileoffset"; "grid"; "image"; "terraintypes"; "tile"; "wangsets"]
  | TileToken => ["image"; "objectgroup"; "animation"]
  | _ => []
  end.

(** What every instance inherits from [object]. *)
Definition object_names : list string :=
  ["__class__"; "__dict__"; "__doc__"; "__module__"; "__weakref__";
   "__delattr__"; "__dir__"; "__eq__"; "__format__"; "__ge__";
   "__getattribute__"; "__gt__"; "__hash__"; "__init_subclass__"; "__le__";
   "__lt__"; "__ne__"; "__new__"; "__reduce__"; "__reduce_ex__"; "__repr__";
   "__setattr__"; "__sizeof__"; "__str__"; "__subclasshook__"].

(** The names found on the class of an instance: the class, then [Token],
    then [object]. *)
Definition class_names (c : token_class) : list string :=
  class_body_names c ++ ((fun t => "add_" +:+ t) <$> class_add_tags c)
  ++ class_body_names Token ++ ((fun t => "add_" +:+ t) <$> class_add_tags Token)
  ++ object_names.

Definition class_has (c : token_class) (name : string) : bool :=
  bool_decide (name ∈ class_names c).

(** The outcome of reading an attribute: a value of the instance, or what
    the class holds under that name (a method, a schema). *)
Inductive attr : Type :=
| AValue (v : value)
| AClass (c : token_class) (name : string).

(** [getattr(o, name)]: the instance dictionary, then the class, then
    [__getattr__].  Values that are no tokens ([None] above all) are read
    only under names they do not have. *)
Definition getattr (o : value) (name : string) : result attr :=
  match o with
  | VToken c d =>
      match dict_get d name with
      | Some v => Ok (AValue v)
      | None =>
          if class_has c name then Ok (AClass c name)
          else AValue <$> Token___getattr__ (mkToken c d) name
      end
  | _ => Err AttributeError
  end.

(** [o.name] where a value is expected; no name read this way is bound by
    a class body (see [static_names_not_on_class]). *)
Definition getattr_val (o : value) (name : string) : result value :=
  a ← getattr o name;
  match a with
  | AValue v => Ok v
  | AClass _ _ => Err TypeError
  end.

(** ** Iteration, indexing, addition *)

Fixpoint chars (s : string) : list string :=
  match s with
  | EmptyString => []
  | String c r => String c EmptyString :: chars r
  end.

Definition of_dkey (k : dkey) : value :=
  match k with KNone => VNone | KStr s => VStr s end.

(** [for i in v] *)
Definition iter_items (v : value) : result (list value) :=
  match v with
  | VTuple l | VList l => Ok l
  | VStr s => Ok (VStr <$> chars s)
  | VDict d => Ok ((fun kv => of_dkey kv.1) <$> d)
  | VArrayH l => Ok (VInt <$> l)
  | VAttrTypes c => Ok ((fun kv => VStr kv.1) <$> attrib_types c)
  | VNone | VBool _ | VInt _ | VFloat _ | VToken _ _ => Err TypeError
  end.

(** [v[k]] for a literal index [k] *)
Definition py_index (v : value) (k : nat) : result value :=
  let nth_of (l : list value) :=
    match l !! k with Some x => Ok x | None => Err IndexError end in
  match v with
  | VTuple l | VList l => nth_of l
  | VStr s => nth_of (VStr <$> chars s)
  | VArrayH l => nth_of (VInt <$> l)
  | VDict _ | VAttrTypes _ => Err (KeyError (pretty k))
  | VNone | VBool _ | VInt _ | VFloat _ | VToken _ _ => Err TypeError
  end.

(** [a + b] *)
Definition py_add (a b : value) : result value :=
  let to_float n :=
    match float_of_int n with Some x => Ok x | None => Err OverflowError end in
  let int_of v :=
    match v with
    | VInt n => Some n
    | VBool b => Some (if b then 1 else 0)
    | _ => None
    end in
  match a, b with
  | VFloat x, VFloat y => Ok (VFloat (float_add x y))
  | VStr x, VStr y => Ok (VStr (x +:+ y))
  | VTuple x, VTuple y => Ok (VTuple (x ++ y))
  | VList x, VList y => Ok (VList (x ++ y))
  | VFloat x, _ =>
      match int_of b with
      | Some n => y ← to_float n; Ok (VFloat (float_add x y))
      | None => Err TypeError
      end
  | _, VFloat y =>
      match int_of a with
      | Some n => x ← to_float n; Ok (VFloat (float_add x y))
      | None => Err TypeError
      end
  | _, _ =>
      match int_of a, int_of b with
      | Some m, Some n => Ok (VInt (m + n))
      | _, _ => Err TypeError
      end
  end.

(** [move_points]: [tuple((i[0] + x, i[1] + y) for i in points)] *)
Definition move_points (points x y : value) : result value :=
  items ← iter_items points;
  VTuple <$>
    mapR (fun i =>
            i0 ← py_index i 0; px ← py_add i0 x;
            i1 ← py_index i 1; py ← py_add i1 y;
            Ok (VTuple [px; py]))
         items.

(** ** start *)

(** [init[key]], a [KeyError] when the key is absent. *)
Definition init_get (init : list (string * string)) (key : string) : result string :=
  match dict_get init key with
  | Some raw => Ok raw
  | None => Err (KeyError key)
  end.

(** One turn of the first loop of [Token.start]: the raw value, or the
    default, is stored under the key. *)
Definition resolve_step (init : list (string * string))
    (attrib : list (string * scalar)) (entry : string * Attr)
    : list (string * scalar) :=
  let '(key, value) := entry in
  let raw_value :=
    match init_get init key with
    | Ok raw => SStr raw
    | Err _ => default value
    end in
  dict_set attrib key raw_value.

Definition resolve_attributes (schema : list (string * Attr))
    (init : list (string * string)) : list (string * scalar) :=
  fold_left (resolve_step init) schema [].

(** The second loop: every value that is not [None] goes through the
    caster of its attribute; the first caster that raises ends the loop. *)
Definition cast_entry (schema : list (string * Attr)) (entry : string * scalar)
    : result (dkey * value) :=
  let '(key, value) := entry in
  match value with
  | SNone => Ok (KStr key, VNone)
  | _ =>
      match dict_get schema key with
      | Some a => v ← apply_caster (cls a) value; Ok (KStr key, v)
      | None => Err (KeyError key)
      end
  end.

Definition cast_attributes (schema : list (string * Attr))
    (attrib : list (string * scalar)) : result (list (dkey * value)) :=
  mapR (cast_entry schema) attrib.

(** [Token.start(self, init, context)]; [context] is not read. *)
Definition Token_start (self : token) (init : list (string * string)) : result token :=
  match dict_get (tok_dict self) "attrib_types" with
  | Some (VAttrTypes c) =>
      let schema := attrib_types c in
      attrib ← cast_attributes schema (resolve_attributes schema init);
      Ok (inst_set self "attrib" (VDict attrib))
  | _ => Err AttributeError
  end.

(** [self.attrib[key] = v] *)
Definition attrib_set (self : token) (key : string) (v : value) : result token :=
  match dict_get (tok_dict self) "attrib" with
  | Some (VDict attrib) =>
      Ok (inst_set self "attrib" (VDict (dict_set attrib (KStr key) v)))
  | Some _ => Err TypeError
  | None => Err RecursionError
  end.

(** [PropertyToken.start]: the value is cast by the type the property
    names; the handler runs when the type or the value is missing. *)
Definition PropertyToken_start (self : token) (init : list (string * string))
    : result token :=
  self ← Token_start self init;
  except_KeyError
    (ty ← init_get init "type";
     _type ← match dict_get tiled_property_type ty with
             | Some c => Ok c
             | None => Err (KeyError ty)
             end;
     raw ← init_get init "value";
     v ← apply_caster _type (SStr raw);
     attrib_set self "value" v)
    (raw ← init_get init "value";
     attrib_set self "value" (VStr raw)).

Definition start (self : token) (init : list (string * string)) : result token :=
  match tok_class self with
  | PropertyToken => PropertyToken_start self init
  | _ => Token_start self init
  end.

(** ** end *)

(** The part of [context] that a token reads: the parent.  The image
    loader is always [default_image_loader]. *)
Record context : Type := mkContext { ctx_parent : value }.

(** [default_image_loader(filename, flags)()]: the closure returns
    [(filename, rect, flags)] of its own arguments, both [None]. *)
Definition default_image_loader_call (filename : value) : value :=
  VTuple [filename; VNone; VNone].

(** [DataToken.end(self, content, context)] *)
Definition DataToken_end (self : token) (content : option string) (ctx : context)
    : result token :=
  let parent := ctx_parent ctx in
  w ← getattr_val parent "width";
  h ← getattr_val parent "height";
  match content with
  | None => Err AttributeError
  | Some content =>
      if negb (String.eqb (strip content) "") then
        encoding ← getattr_val (VTok self) "encoding";
        compression ← getattr_val (VTok self) "compression";
        data ← unpack (PStr content) encoding compression;
        gids ← unroll_layer_data data;
        rows ← rowify (VInt <$> gids) w h;
        Ok (inst_set self "data" rows)
      else
        tiles ← getattr_val (VTok self) "tiles";
        if truthy tiles then
          tiles ← getattr_val (VTok self) "tiles";
          items ← iter_items tiles;
          gids ← mapR (fun i => getattr_val i "gid") items;
          rows ← rowify gids w h;
          Ok (inst_set self "data" rows)
        else Err (Exception_ "no layer data?")
  end.

(** [ImageToken.end] *)
Definition ImageToken_end (self : token) : result token :=
  source ← getattr_val (VTok self) "source";
  Ok (inst_set self "image" (default_image_loader_call source)).

(** [TilesetSourceToken.end]: its first line reads [source], a name that
    is bound nowhere. *)
Definition TilesetSourceToken_end (self : token) : result token :=
  Err (NameError "source").

(** The operands of an integer expression; they were cast by [int] or are
    [None], and one that is no integer ends in a [TypeError]. *)
Definition int_operands (vs : list value) : result (list Z) := mapR as_int vs.

(** [range(self.margin, extent + self.margin - t + 1, t + self.spacing)]
    as far as it can raise. *)
Definition tile_range (self : token) (extent t : value) : result unit :=
  let me := VTok self in
  start ← getattr_val me "margin";
  margin ← getattr_val me "margin";
  _ ← int_operands [extent; margin; t];
  spacing ← getattr_val me "spacing";
  step ← int_operands [t; spacing];
  _ ← as_int start;
  if foldr Z.add 0 step =? 0 then Err ValueError else Ok ().

(** [TilesetToken.load_tiles]: the loop body calls the loader and keeps
    nothing, so only the failures are left. *)
Definition TilesetToken_load_tiles (self : token) : result token :=
  let me := VTok self in
  tw ← getattr_val me "tilewidth";
  th ← getattr_val me "tileheight";
  image ← getattr_val me "image";
  width ← getattr_val image "width";
  image ← getattr_val me "image";
  height ← getattr_val image "height";
  _ ← tile_range self height th;
  _ ← tile_range self width tw;
  image ← getattr_val me "image";
  path ← getattr_val image "source";
  image ← getattr_val me "image";
  trans ← getattr_val image "trans";
  firstgid ← getattr_val me "firstgid";
  _ ← as_int firstgid;
  Ok self.

(** [TilesetToken.end] *)
Definition TilesetToken_end (self : token) : result token :=
  source ← getattr_val (VTok self) "source";
  match source with
  | VNone => TilesetToken_load_tiles self
  | _ => Ok self
  end.

Definition end_ (self : token) (content : option string) (ctx : context)
    : result token :=
  match tok_class self with
  | DataToken => DataToken_end self content ctx
  | ImageToken => ImageToken_end self
  | TilesetSourceToken => TilesetSourceToken_end self
  | TilesetToken => TilesetToken_end self
  | _ => Ok self
  end.

(** ** combine and the add_ methods *)

(** [self.<slot>.append(item)] *)
Definition slot_append (slot : string) (self : token) (item : value) : result token :=
  l ← getattr_val (VTok self) slot;
  match l with
  | VList items => Ok (inst_set self slot (VList (items ++ [item])))
  | _ => Err AttributeError
  end.

(** [self.<slot> = item] *)
Definition slot_assign (slot : string) (self : token) (item : value) : result token :=
  Ok (inst_set self slot item).

(** [raise UnsupportedFeature] *)
Definition reject (self : token) (item : value) : result token :=
  Err (UnsupportedFeature []).

(** [Token.add_properties] *)
Definition add_properties (self : token) (item : value) : result token :=
  d ← getattr_val item "dictionary";
  Ok (inst_set self "properties" d).

(** [ObjectToken.add_polygon] and [add_polyline] *)
Definition add_points (closed : bool) (self : token) (item : value) : result token :=
  points ← getattr_val item "points";
  x ← getattr_val (VTok self) "x";
  y ← getattr_val (VTok self) "y";
  moved ← move_points points x y;
  attrib_set (inst_set self "points" moved) "closed" (VBool closed).

(** [PropertiesToken.add_property]: [self.dictionary[item.name] = item.value];
    the name of a property is a string or [None]. *)
Definition add_property (self : token) (item : value) : result token :=
  d ← getattr_val (VTok self) "dictionary";
  k ← getattr_val item "name";
  v ← getattr_val item "value";
  match d, k with
  | VDict d, VNone => Ok (inst_set self "dictionary" (VDict (dict_set d KNone v)))
  | VDict d, VStr s => Ok (inst_set self "dictionary" (VDict (dict_set d (KStr s) v)))
  | _, _ => Err TypeError
  end.

(** The [add_<tag>] methods a class body defines, by tag. *)
Definition class_add_table (c : token_class)
    : list (string * (token -> value -> result token)) :=
  match c with
  | Token => [("properties", add_properties)]
  | AnimationToken => [("frame", slot_append "frames")]
  | ChunkToken => [("tile", reject)]
  | DataToken => [("tile", slot_append "tiles"); ("chunk", slot_append "chunks")]
  | GroupToken =>
      [("layer", reject); ("objectgroup", reject); ("imagelayer", reject);
       ("group", reject)]
  | ImagelayerToken => [("image", slot_assign "image")]
  | ImageToken => [("data", reject)]
  | LayerToken => [("data", slot_assign "data")]
  | MapToken =>
      [("tileset", slot_append "tilesets"); ("layer", slot_append "layers");
       ("objectgroup", slot_append "objectgroups");
       ("imagelayer", slot_append "layers"); ("group", reject)]
  | ObjectgroupToken => [("object", slot_append "objects")]
  | ObjectToken =>
      [("ellipse", fun self _ => Ok (inst_set self "ellipse" (VBool true)));
       ("polygon", add_points true); ("polyline", add_points false);
       ("text", reject); ("image", reject)]
  | PropertiesToken => [("property", add_property)]
  | TemplateToken =>
      [("terrain", slot_append "terrains"); ("object", slot_append "objects")]
  | TerraintypesToken => [("terrain", slot_append "terrains")]
  | TilesetToken =>
      [("tileoffset", reject); ("grid", reject); ("image", slot_assign "image");
       ("terraintypes", reject); ("tile", slot_append "tiles");
       ("wangsets", reject)]
  | TileToken =>
      [("image", slot_assign "image"); ("objectgroup", reject);
       ("animation", reject)]
  | _ => []
  end.

Definition class_add (c : token_class) (tag : string)
    : option (token -> value -> result token) :=
  dict_get (class_add_table c) tag.

(** Calling what [getattr(self, "add_" + tag)] found with one argument:
    a method of the class or of [Token]; anything else does not take it. *)
Definition call_add (found : attr) (tag : string) (self : token) (child : value)
    : result token :=
  match found with
  | AValue _ => Err TypeError
  | AClass c _ =>
      match class_add c tag with
      | Some f => f self child
      | None =>
          match class_add Token tag with
          | Some f => f self child
          | None => Err TypeError
          end
      end
  end.

(** [Token.combine(self, child, tag)] *)
Definition combine (self : token) (child : value) (tag : string) : result token :=
  func ← except_AttributeError
    (getattr (VTok self) ("add_" +:+ tag))
    (Err (UnsupportedFeature [class_name (tok_class self); tag]));
  call_add func tag self child.

(** ** as_object *)

(** [f] applied to what a dictionary holds under [key], [dflt] when the
    key is absent. *)
Definition with_entry {K} `{EqDecision K} {B} (f : value -> B) (dflt : B) (key : K)
    : list (K * value) -> B :=
  fix go d :=
    match d with
    | [] => dflt
    | (k, v) :: r => if decide (k = key) then f v else go r
    end.

(** [Token.as_object]: the attributes, and the properties under
    ["properties"]. *)
Definition Token_as_object (self : token) : result (list (dkey * value)) :=
  attrib ← getattr_val (VTok self) "attrib";
  properties ← getattr_val (VTok self) "properties";
  match attrib with
  | VDict a => Ok (dict_set (dict_update [] a) (KStr "properties") properties)
  | _ => Err TypeError
  end.

(** [o.as_object()]: [MapToken] adds the projections of its tilesets,
    layers and object groups. *)
Fixpoint as_object (o : value) : result value :=
  match o with
  | VToken c d =>
      obj ← Token_as_object (mkToken c d);
      if decide (c = MapToken) then
        let things (v : value) : result (list value) :=
          match v with
          | VList l | VTuple l => mapR as_object l
          | _ => items ← iter_items v;
                 match items with [] => Ok [] | _ => Err AttributeError end
          end in
        let project (name : string) : result (list value) :=
          with_entry things
            (if class_has c name then Err TypeError
             else with_entry
                    (fun a => match a with
                              | VDict a => with_entry things (Err AttributeError) (KStr name) a
                              | _ => Err TypeError
                              end)
                    (Err RecursionError) "attrib" d)
            name d in
        VDict <$>
          fold_left
            (fun acc name =>
               obj ← acc;
               r ← project name;
               Ok (dict_set obj (KStr name) (VList r)))
            ["tilesets"; "layers"; "objectgroups"]
            (Ok obj)
      else Ok (VDict obj)
  | _ => Err AttributeError
  end.

(** ** The registry and the driver *)

(** The module-level names that end in [Token]: the classes.  They are
    what [globals()[feature + "Token"]] can reach. *)
Definition globals_class : list (string * token_class) :=
  (fun c => (class_name c, c)) <$> all_classes.

(** [get_processor(feature)] *)
Definition get_processor (feature : string) : result token :=
  except_KeyError
    (match dict_get globals_class (feature +:+ "Token") with
     | Some c => Ok (construct c)
     | None => Err (KeyError (feature +:+ "Token"))
     end)
    (Err (UnsupportedFeature [feature])).

(** What the loader yields: [(event, tag, attrib, text)]. *)
Record event : Type := mkEvent {
  ev_kind : string;
  ev_tag : string;
  ev_attrib : list (string * string);
  ev_text : option string
}.

(** The variables of [slurp]: the stack (the right end of the deque is
    the head of the list), [token], and the parent in [context]. *)
Record state : Type := mkState {
  st_stack : list value;
  st_token : value;
  st_context : context
}.

(** [token.end(text, context)] on whatever was popped. *)
Definition call_end (tok : value) (text : option string) (ctx : context)
    : result token :=
  match tok with
  | VToken c d => end_ (mkToken c d) text ctx
  | _ => Err AttributeError
  end.

(** One turn of the loop of [slurp]. *)
Definition step (st : state) (ev : event) : result state :=
  if String.eqb (ev_kind ev) "start" then
    token ← get_processor (ev_tag ev);
    token ← start token (ev_attrib ev);
    Ok (mkState (VTok token :: st_stack st) (VTok token) (st_context st))
  else if String.eqb (ev_kind ev) "end" then
    match st_stack st with
    | [] => Err IndexError
    | token :: stack =>
        match stack with
        | [] => Err IndexError
        | parent :: below =>
            let ctx := mkContext parent in
            token ← call_end token (ev_text ev) ctx;
            match parent with
            | VToken pc pd =>
                parent ← combine (mkToken pc pd) (VTok token) (lower (ev_tag ev));
                Ok (mkState (VTok parent :: below) (VTok token) ctx)
            | _ =>
                if truthy parent then Err AttributeError
                else Ok (mkState stack (VTok token) ctx)
            end
        end
    end
  else Ok st.

Fixpoint run (st : state) (events : list event) : result state :=
  match events with
  | [] => Ok st
  | ev :: rest => st ← step st ev; run st rest
  end.

Definition initial_state : state :=
  mkState [VNone] VNone (mkContext VNone).

(** What a call of [slurp] leaves: the object it has pretty-printed and
    the value it returns. *)
Record outcome : Type := mkOutcome {
  printed : value;
  returned : value
}.

(** [slurp], from the events of [get_loader(path)] on: the loop, then
    [pprint.pprint(token.as_object())]; the function ends there, without a
    [return]. *)
Definition slurp (events : list event) : result outcome :=
  st ← run initial_state events;
  obj ← as_object (st_token st);
  Ok (mkOutcome obj VNone).

(** ** Vocabulary of the statements *)

(** What an unsigned short holds. *)
Definition fits_unsigned_short (n : Z) : Prop := 0 <= n <= 65535.

(** The rows of [rowify]: row [i] is the slice [ids[i*w : i*w + w]], for
    [i] below [h], whatever the number of ids. *)
Definition rows_of (ids : list Z) (w h : Z) : value :=
  VTuple ((fun i => VArrayH (py_slice ids (i * w) (i * w + w))) <$> py_range h).

(** The raw value of an attribute, or its default. *)
Definition resolved (init : list (string * string)) (key : string) (a : Attr)
    : scalar :=
  match init_get init key with
  | Ok raw => SStr raw
  | Err _ => default a
  end.

Definition resolved_entry (init : list (string * string)) (entry : string * Attr)
    : string * scalar :=
  (entry.1, resolved init entry.1 entry.2).

(** The names the methods read with [getattr_val]. *)
Definition static_names : list string :=
  ["width"; "height"; "encoding"; "compression"; "tiles"; "gid"; "source";
   "tilewidth"; "tileheight"; "image"; "margin"; "spacing"; "trans";
   "firstgid"; "dictionary"; "points"; "x"; "y"; "name"; "value"; "attrib";
   "properties"; "frames"; "chunks"; "tilesets"; "layers"; "objectgroups";
   "objects"; "terrains"].

(** The document of one empty map element. *)
Definition root_only : list event :=
  [mkEvent "start" "Map" [] None; mkEvent "end" "Map" [] None].

End Mason.

(** ** Instances for the examples *)

(** Floats that are exact: a numerator over a power of ten.  [parse]
    reads an optional sign, digits, and an optional point with digits. *)
Module ExactFloat.
Record t : Type := mk { num : Z; exp10 : nat }.

Definition add (a b : t) : t :=
  let e := Nat.max (exp10 a) (exp10 b) in
  mk (num a * 10 ^ Z.of_nat (e - exp10 a) + num b * 10 ^ Z.of_nat (e - exp10 b)) e.

Fixpoint frac (acc : Z) (e : nat) (s : string) : option t :=
  match s with
  | EmptyString => Some (mk acc e)
  | String c r =>
      match digit_of c with
      | Some d => frac (10 * acc + d) (S e) r
      | None => None
      end
  end.

Fixpoint whole (acc : Z) (seen : bool) (s : string) : option t :=
  match s with
  | EmptyString => if seen then Some (mk acc 0) else None
  | String c r =>
      match digit_of c with
      | Some d => whole (10 * acc + d) true r
      | None =>
          if Ascii.eqb c "."%char then
            match r with
            | EmptyString => if seen then Some (mk acc 0) else None
            | _ => frac acc 0 r
            end
          else None
      end
  end.

Definition parse (s : string) : option t :=
  match strip s with
  | String "-"%char r => (fun x => mk (- num x) (exp10 x)) <$> whole 0 false r
  | String "+"%char r => whole 0 false r
  | body => whole 0 false body
  end.

Definition trunc (x : t) : result Z :=
  Ok (Z.quot (num x) (10 ^ Z.of_nat (exp10 x))).

Definition to_str (x : t) : string :=
  pretty (num x) +:+ "e-" +:+ pretty (exp10 x).
End ExactFloat.

Definition exact_floats : FloatOps := {|
  float := ExactFloat.t;
  float_of_str := ExactFloat.parse;
  float_of_int := fun n => Some (ExactFloat.mk n 0);
  float_of_bool := fun b => ExactFloat.mk (if b then 1 else 0) 0;
  float_add := ExactFloat.add;
  float_trunc := ExactFloat.trunc;
  float_nonzero := fun x => negb (ExactFloat.num x =? 0);
  float_str := ExactFloat.to_str
|}.

(** Base64 of the standard alphabet; no inflate: both decompressors
    refuse their input. *)
Module Base64.
Definition sextet (b : byte) : option Z :=
  let n := Z.of_N (Byte.to_N b) in
  if (65 <=? n) && (n <=? 90) then Some (n - 65)
  else if (97 <=? n) && (n <=? 122) then Some (n - 71)
  else if (48 <=? n) && (n <=? 57) then Some (n + 4)
  else if n =? 43 then Some 62
  else if n =? 47 then Some 63
  else None.

Definition byte_of (n : Z) : byte :=
  match Byte.of_N (Z.to_N (n mod 256)) with Some b => b | None => x00 end.

Definition is_pad (b : byte) : bool := Z.of_N (Byte.to_N b) =? 61.

Fixpoint quads (fuel : nat) (l : list byte) : result (list byte) :=
  match fuel, l with
  | _, [] => Ok []
  | S fuel, a :: b :: c :: d :: r =>
      match sextet a, sextet b with
      | Some a, Some b =>
          let b0 := byte_of (a * 4 + b / 16) in
          match sextet c, sextet d with
          | Some c, Some d =>
              rest ← quads fuel r;
              Ok (b0 :: byte_of (b * 16 + c / 4) :: byte_of (c * 64 + d) :: rest)
          | Some c, None =>
              if is_pad d && bool_decide (r = []) then Ok [b0; byte_of (b * 16 + c / 4)]
              else Err CodecError
          | None, _ =>
              if is_pad c && is_pad d && bool_decide (r = []) then Ok [b0]
              else Err CodecError
          end
      | _, _ => Err CodecError
      end
  | _, _ => Err CodecError
  end.

Definition decode (l : list byte) : result (list byte) := quads (length l) l.
End Base64.

Definition base64_only : Codecs := {|
  b64decode := Base64.decode;
  zlib_decompress := fun _ => Err CodecError;
  gzip_read := fun _ => Err CodecError
|}.

(** ** Inputs of the examples *)

Section ExampleInputs.
#[local] Existing Instance exact_floats.
#[local] Existing Instance base64_only.

(** The token that [get_processor] builds and [start] fills. *)
Definition started (c : token_class) (init : list (string * string)) : token :=
  match start (construct c) init with
  | Ok t => t
  | Err _ => construct c
  end.

(** What the driver does with a layer of [w] by [h] whose data element
    has one tile child per gid and the text [text]: the value left in the
    [data] slot of the data token. *)
Definition decode_tile_children (w h : string) (gids : list string)
    (text : option string) : result value :=
  let layer := started LayerToken [("width", w); ("height", h)] in
  data ← foldl
    (fun acc gid =>
       data ← acc;
       tile ← end_ (started TileToken [("gid", gid)]) None (mkContext (VTok data));
       combine data (VTok tile) "tile")
    (Ok (started DataToken [])) gids;
  data ← end_ data text (mkContext (VTok layer));
  getattr_val (VTok data) "data".

(** A data token with the tile children of gids 1, 2 and 3. *)
Definition three_tiles : token :=
  foldl
    (fun data gid =>
       match combine data (VTok (started TileToken [("gid", gid)])) "tile" with
       | Ok data => data
       | Err _ => data
       end)
    (started DataToken []) ["1"; "2"; "3"].

(** An object with the property [hp] and no attribute of that name. *)
Definition object_with_hp : token :=
  match add_properties (started ObjectToken [("name", "hero")])
          (VToken PropertiesToken [("dictionary", VDict [(KStr "hp", VInt 12)])]) with
  | Ok t => t
  | Err _ => construct ObjectToken
  end.

End ExampleInputs.

(** * Properties *)

(** ** decode_gid *)

Lemma land_pow2 (a n : Z) :
  0 <= n -> Z.land a (2 ^ n) = if Z.testbit a n then 2 ^ n else 0.
Proof.
  intros Hn. apply Z.bits_inj'. intros m Hm.
  rewrite Z.land_spec, Z.pow2_bits_eqb by lia.
  destruct (Z.eqb_spec n m) as [->|Hne].
  - destruct (Z.testbit a m); simpl.
    + rewrite Z.pow2_bits_eqb by lia. symmetry. apply Z.eqb_refl.
    + symmetry. apply Z.bits_0.
  - rewrite andb_false_r. destruct (Z.testbit a n).
    + rewrite Z.pow2_bits_eqb by lia. symmetry. by apply Z.eqb_neq.
    + symmetry. apply Z.bits_0.
Qed.

Lemma flag_test (a n : Z) :
  0 <= n -> (Z.land a (Z.shiftl 1 n) =? Z.shiftl 1 n) = Z.testbit a n.
Proof.
  intros Hn. rewrite Z.shiftl_1_l, land_pow2 by lia.
  destruct (Z.testbit a n).
  - apply Z.eqb_refl.
  - apply Z.eqb_neq. pose proof (Z.pow_pos_nonneg 2 n). lia.
Qed.

Lemma decode_gid_flags_bits (raw : Z) :
  decode_gid_flags raw =
  mkTileFlags (Z.testbit raw 31) (Z.testbit raw 30) (Z.testbit raw 29).
Proof.
  unfold decode_gid_flags, GID_TRANS_FLIPX, GID_TRANS_FLIPY, GID_TRANS_ROT.
  by rewrite !flag_test by lia.
Qed.

Lemma decode_gid_testbit (raw n : Z) :
  0 <= n ->
  Z.testbit (decode_gid raw) n =
  Z.testbit raw n && negb ((n =? 31) || (n =? 30) || (n =? 29)).
Proof.
  intros Hn. unfold decode_gid, GID_TRANS_FLIPX, GID_TRANS_FLIPY, GID_TRANS_ROT.
  rewrite Z.land_spec, Z.lnot_spec, !Z.lor_spec, !Z.shiftl_1_l by lia.
  rewrite !Z.pow2_bits_eqb by lia.
  by rewrite (Z.eqb_sym 31), (Z.eqb_sym 30), (Z.eqb_sym 29).
Qed.

Lemma decode_gid_mod (raw : Z) :
  0 <= raw < 2 ^ 32 -> decode_gid raw = raw mod 2 ^ 29.
Proof.
  intros Hraw. apply Z.bits_inj'. intros n Hn.
  rewrite decode_gid_testbit by lia.
  destruct (Z.ltb_spec n 29) as [Hlt|Hge].
  - rewrite Z.mod_pow2_bits_low by lia.
    replace (n =? 31) with false by (symmetry; apply Z.eqb_neq; lia).
    replace (n =? 30) with false by (symmetry; apply Z.eqb_neq; lia).
    replace (n =? 29) with false by (symmetry; apply Z.eqb_neq; lia).
    apply andb_true_r.
  - rewrite Z.mod_pow2_bits_high by lia.
    destruct (Z.ltb_spec n 32) as [Hlt|Hge'].
    + assert (n = 29 \/ n = 30 \/ n = 31) as [->|[->| ->]] by lia;
        apply andb_false_r.
    + rewrite <- (Z.mod_small raw (2 ^ 32)) by lia.
      by rewrite Z.mod_pow2_bits_high by lia.
Qed.

(** C1, as the code has it: for every 32-bit raw gid, [decode_gid] returns
    the tile id alone, which is the input with bits 31, 30 and 29 cleared
    (so it lies below 2^29); the flag triple it builds on the way holds
    exactly those three bits, and is not part of the result. *)
Theorem decode_gid_returns_cleared_id (raw : Z) :
  0 <= raw < 2 ^ 32 ->
  0 <= decode_gid raw < 2 ^ 29 /\
  (forall n, 0 <= n ->
     Z.testbit (decode_gid raw) n =
     Z.testbit raw n && negb ((n =? 31) || (n =? 30) || (n =? 29))) /\
  decode_gid_flags raw =
  mkTileFlags (Z.testbit raw 31) (Z.testbit raw 30) (Z.testbit raw 29).
Proof.
  intros Hraw. split; [|split].
  - rewrite decode_gid_mod by done. apply Z.mod_pos_bound. lia.
  - intros n Hn. by apply decode_gid_testbit.
  - apply decode_gid_flags_bits.
Qed.

Lemma decode_gid_returns_cleared_id_witness :
  0 <= 2147483653 < 2 ^ 32 /\
  decode_gid 2147483653 = 5 /\
  decode_gid_flags 2147483653 = mkTileFlags true false false.
Proof.
  split; [lia|].
  pose proof (decode_gid_returns_cleared_id 2147483653 ltac:(lia)) as [_ [_ H]].
  split; [reflexivity | exact H].
Defined.

(** C1, as the claim has it, fails: the result carries no flags.  A raw
    gid with the horizontal flip set and the same gid without it have
    different flag triples and decode to the same result, the integer 5:
    the value [decode_gid] returns is no pair, and the flags cannot be
    read off it. *)
Lemma decode_gid_result_has_no_flags :
  decode_gid 2147483653 = 5 /\
  decode_gid 5 = 5 /\
  decode_gid_flags 2147483653 = mkTileFlags true false false /\
  decode_gid_flags 5 = mkTileFlags false false false.
Proof. repeat split. Qed.

(** ** calc_bounds *)

Lemma foldr_min_acc (b x : Z) (cs : list Z) :
  foldr Z.min (Z.min x b) cs = Z.min x (foldr Z.min b cs).
Proof. induction cs as [|c cs IH]; simpl; [done|]. rewrite IH. lia. Qed.

Lemma foldr_max_acc (b x : Z) (cs : list Z) :
  foldr Z.max (Z.max x b) cs = Z.max x (foldr Z.max b cs).
Proof. induction cs as [|c cs IH]; simpl; [done|]. rewrite IH. lia. Qed.

(** The loop keeps [x1 <= 0 <= x2], so the [elif] never skips a new
    maximum, and the four variables are the running minima and maxima. *)
Lemma calc_bounds_loop (points : list (Z * Z)) (a : bounds_acc) :
  bx1 a <= 0 <= bx2 a -> by1 a <= 0 <= by2 a ->
  let r := fold_left calc_bounds_step points a in
  bx1 r = foldr Z.min (bx1 a) points.*1 /\
  bx2 r = foldr Z.max (bx2 a) points.*1 /\
  by1 r = foldr Z.min (by1 a) points.*2 /\
  by2 r = foldr Z.max (by2 a) points.*2.
Proof.
  revert a. induction points as [|[x y] points IH]; intros a Hx Hy.
  - done.
  - rewrite !fmap_cons. cbn [fold_left foldr fst snd].
    set (a' := calc_bounds_step a (x, y)).
    assert (bx1 a' = Z.min x (bx1 a) /\ bx2 a' = Z.max x (bx2 a) /\
            by1 a' = Z.min y (by1 a) /\ by2 a' = Z.max y (by2 a))
      as (E1 & E2 & E3 & E4).
    { subst a'. unfold calc_bounds_step.
      destruct (Z.ltb_spec x (bx1 a)), (Z.gtb_spec x (bx2 a)),
        (Z.ltb_spec y (by1 a)), (Z.gtb_spec y (by2 a)); simpl; lia. }
    destruct (IH a') as (I1 & I2 & I3 & I4); [lia | lia |].
    rewrite I1, I2, I3, I4, E1, E2, E3, E4.
    by rewrite !foldr_min_acc, !foldr_max_acc.
Qed.

(** C8: for every point list, [calc_bounds] returns on each axis the sum
    of the absolute extents from the origin in both directions; the
    minimum of the points themselves plays no part when it lies above the
    origin, and [calc_bounds [(-3,2); (4,-1)]] is [(7, 3)]. *)
Theorem calc_bounds_origin_relative :
  (forall points : list (Z * Z),
     calc_bounds points = (origin_extent points.*1, origin_extent points.*2)) /\
  calc_bounds [(-3, 2); (4, -1)] = (7, 3) /\
  calc_bounds [(2, 2); (4, 3)] = (4, 3).
Proof.
  split; [|split; reflexivity].
  intros points. unfold calc_bounds, origin_extent.
  destruct (calc_bounds_loop points (mkAcc 0 0 0 0)) as (E1 & E2 & E3 & E4);
    simpl; [lia | lia |].
  by rewrite E1, E2, E3, E4.
Qed.

Section Properties.
Context {FO : FloatOps} {CO : Codecs}.

(** ** The result monad *)

Lemma bind_Ok {A B} (a : A) (f : A -> result B) : (Ok a ≫= f) = f a.
Proof. reflexivity. Qed.

Lemma bind_Err {A B} (e : exn) (f : A -> result B) : (Err e ≫= f) = Err e.
Proof. reflexivity. Qed.

Lemma mapR_ok {A B} (f : A -> result B) (g : A -> B) (l : list A) :
  Forall (fun x => f x = Ok (g x)) l -> mapR f l = Ok (g <$> l).
Proof.
  induction 1 as [|x l Hx _ IH]; [done|].
  cbn [mapR]. rewrite Hx. cbn. rewrite IH. done.
Qed.

(** The error of [mapR] is the error of the first element that fails. *)
Lemma mapR_first_error {A B} (f : A -> result B) (l : list A) :
  Exists (fun x => is_ok (f x) = false) l ->
  exists x e, x ∈ l /\ f x = Err e /\ mapR f l = Err e.
Proof.
  induction l as [|y l IH]; intros HE; [by apply Exists_nil in HE|].
  cbn [mapR]. destruct (f y) as [b|e] eqn:Hy.
  - apply Exists_cons in HE as [HE|HE]; [by rewrite Hy in HE|].
    destruct (IH HE) as (x & e & Hin & Hx & Hm).
    exists x, e. split; [by right|]. split; [done|]. cbn. by rewrite Hm.
  - exists y, e. split; [by left|]. done.
Qed.

(** ** Slices and rows *)

Lemma py_slice_fmap {A B} (f : A -> B) (l : list A) (lo hi : Z) :
  py_slice (f <$> l) lo hi = f <$> py_slice l lo hi.
Proof. unfold py_slice. by rewrite length_fmap, fmap_take, fmap_drop. Qed.

(** A slice of non-negative bounds is a [take] of a [drop]. *)
Lemma py_slice_window {A} (l : list A) (lo w : Z) :
  0 <= lo -> 0 <= w ->
  py_slice l lo (lo + w) = take (Z.to_nat w) (drop (Z.to_nat lo) l).
Proof.
  intros Hlo Hw. unfold py_slice, slice_index.
  replace (lo <? 0) with false by (symmetry; apply Z.ltb_ge; lia).
  replace (lo + w <? 0) with false by (symmetry; apply Z.ltb_ge; lia).
  set (len := Z.of_nat (length l)).
  destruct (Z.le_gt_cases len lo) as [Hge|Hlt].
  - rewrite Z.min_r by lia.
    rewrite !drop_ge by lia. by rewrite !take_nil.
  - rewrite (Z.min_l lo) by lia.
    destruct (Z.le_gt_cases (lo + w) len) as [Hin|Hout].
    + rewrite Z.min_l by lia. f_equal. lia.
    + rewrite Z.min_r by lia.
      rewrite !take_ge; [done| |]; rewrite length_drop; lia.
Qed.

(** The windows [take w (drop (k * w) l)] for [k < h], one after the
    other, are the first [h * w] elements. *)
Lemma concat_windows {A} (l : list A) (w h : nat) :
  concat ((fun k => take w (drop (k * w) l)) <$> seq 0 h) = take (h * w) l.
Proof.
  induction h as [|h IH]; [done|].
  rewrite seq_S, fmap_app, concat_app, IH. simpl.
  rewrite app_nil_r, take_take_drop. f_equal. lia.
Qed.

Lemma array_H_item_ok (n : Z) :
  fits_unsigned_short n -> array_H_item (VInt n) = Ok n.
Proof.
  intros [H0 H1]. unfold array_H_item. cbn.
  apply Z.leb_le in H0, H1. by rewrite H0, H1.
Qed.

Lemma array_H_ok (ids : list Z) :
  Forall fits_unsigned_short ids ->
  mapR array_H_item (VInt <$> ids) = Ok ids.
Proof.
  intros Hids.
  rewrite (mapR_ok _ (fun v => match v with VInt n => n | _ => 0 end)).
  - rewrite <- list_fmap_compose. f_equal. clear Hids.
    induction ids as [|n ids IH]; [done|]. rewrite fmap_cons. cbn. by rewrite IH.
  - apply Forall_fmap. eapply Forall_impl; [exact Hids|].
    intros n Hn. by apply array_H_item_ok.
Qed.

Lemma Forall_py_slice {A} (P : A -> Prop) (l : list A) (lo hi : Z) :
  Forall P l -> Forall P (py_slice l lo hi).
Proof. intros H. unfold py_slice. by apply Forall_take, Forall_drop. Qed.

Lemma rowify_rows (ids : list Z) (w h : Z) :
  Forall fits_unsigned_short ids ->
  rowify (VInt <$> ids) (VInt w) (VInt h) = Ok (rows_of ids w h).
Proof.
  intros Hids. unfold rowify, rows_of. cbn.
  rewrite (mapR_ok _ (fun i => VArrayH (py_slice ids (i * w) (i * w + w)))); [done|].
  apply Forall_forall. intros i _.
  rewrite py_slice_fmap, array_H_ok; [done|]. by apply Forall_py_slice.
Qed.

Lemma flatten_rows_of (ids : list Z) (w h : Z) :
  0 <= w -> 0 <= h ->
  flatten_rows (rows_of ids w h) = take (Z.to_nat (w * h)) ids.
Proof.
  intros Hw Hh. unfold flatten_rows, rows_of, py_range.
  rewrite <- !list_fmap_compose.
  rewrite Z2Nat.inj_mul, Nat.mul_comm by lia.
  rewrite <- (concat_windows ids (Z.to_nat w) (Z.to_nat h)).
  f_equal. apply list_fmap_ext. intros _ k _. cbn.
  rewrite py_slice_window by lia. do 2 f_equal. lia.
Qed.

(** The second branch of [DataToken.end]: the gids of the tile children
    go to [rowify] as they are. *)
Lemma DataToken_end_tile_children (self : token) (ctx : context)
    (content : string) (items : list value) (ids : list Z) (w h : Z) :
  Forall fits_unsigned_short ids ->
  getattr_val (ctx_parent ctx) "width" = Ok (VInt w) ->
  getattr_val (ctx_parent ctx) "height" = Ok (VInt h) ->
  String.eqb (strip content) "" = true ->
  getattr_val (VTok self) "tiles" = Ok (VList items) ->
  items <> [] ->
  mapR (fun i => getattr_val i "gid") items = Ok (VInt <$> ids) ->
  DataToken_end self (Some content) ctx
  = Ok (inst_set self "data" (rows_of ids w h)).
Proof.
  intros Hids Hw Hh Hc Ht Hne Hg. unfold DataToken_end.
  rewrite Hw, Hh, !bind_Ok, Hc. cbn [negb]. rewrite Ht, !bind_Ok.
  assert (truthy (VList items) = true) as ->.
  { cbn. by rewrite bool_decide_false. }
  cbn [iter_items]. rewrite ?bind_Ok, Hg, ?bind_Ok.
  by rewrite rowify_rows.
Qed.

(** C4, as the code has it: the reshape step compares nothing with
    width*height and raises no error of its own.  For ids that fit an
    unsigned short and non-negative [w] and [h], [rowify] succeeds on a
    sequence of any length: row [i] is [ids[i*w : i*w + w]], so the rows
    hold the first [w * h] ids, ids beyond them are dropped, and a shorter
    sequence leaves short rows.  [DataToken.end], with the dimensions of
    the parent, stores these rows for tile children of any number. *)
Theorem rowify_checks_no_count (ids : list Z) (w h : Z) :
  0 <= w -> 0 <= h -> Forall fits_unsigned_short ids ->
  rowify (VInt <$> ids) (VInt w) (VInt h) = Ok (rows_of ids w h) /\
  flatten_rows (rows_of ids w h) = take (Z.to_nat (w * h)) ids /\
  (forall self ctx content items,
     getattr_val (ctx_parent ctx) "width" = Ok (VInt w) ->
     getattr_val (ctx_parent ctx) "height" = Ok (VInt h) ->
     String.eqb (strip content) "" = true ->
     getattr_val (VTok self) "tiles" = Ok (VList items) ->
     items <> [] ->
     mapR (fun i => getattr_val i "gid") items = Ok (VInt <$> ids) ->
     DataToken_end self (Some content) ctx
     = Ok (inst_set self "data" (rows_of ids w h))).
Proof.
  intros Hw Hh Hids. split; [|split].
  - by apply rowify_rows.
  - by apply flatten_rows_of.
  - intros self ctx content items. by apply DataToken_end_tile_children.
Qed.

(** C7, as the code has it: for non-negative [w] and [h] and a sequence of
    exactly [w * h] tile ids that each fit an unsigned short (the item type
    of the row arrays), [rowify] succeeds and its rows, flattened in
    row-major order, are the sequence. *)
Theorem rowify_flatten_roundtrip (ids : list Z) (w h : Z) :
  0 <= w -> 0 <= h -> Z.of_nat (length ids) = w * h ->
  Forall fits_unsigned_short ids ->
  exists rows,
    rowify (VInt <$> ids) (VInt w) (VInt h) = Ok rows /\
    flatten_rows rows = ids.
Proof.
  intros Hw Hh Hlen Hids. exists (rows_of ids w h). split.
  - by apply rowify_rows.
  - rewrite flatten_rows_of by done. apply take_ge. lia.
Qed.

(** ** DataToken.end *)

(** Whatever [globals()[prefix + xform]] finds, it does not accept the
    iterator of [decode_csv]. *)
Lemma xformer_rejects_map (name : string) (f : payload -> result payload)
    (fields : list string) :
  dict_get globals_xform name = Some f -> is_ok (f (PMapInt fields)) = false.
Proof.
  unfold globals_xform. cbn [dict_get].
  repeat case_decide; intros [= <-]; reflexivity.
Qed.

Lemma unpack_csv (content : string) :
  unpack (PStr content) (VStr "csv") VNone
  = Ok (PMapInt (split_on ","%char (join_stripped_chars (strip content)))).
Proof. reflexivity. Qed.

(** C3 fails on the code: with the encoding ["csv"], [decode_csv] hands
    its [map] object on, and [unroll_layer_data], which is not bypassed,
    asks for its [len].  A data node with text, whose encoding is ["csv"],
    never gets a grid: without compression its [end] raises [TypeError],
    and with any compression it raises as well. *)
Theorem csv_data_raises (self : token) (ctx : context) (content : string)
    (w h compression : value) :
  getattr_val (ctx_parent ctx) "width" = Ok w ->
  getattr_val (ctx_parent ctx) "height" = Ok h ->
  String.eqb (strip content) "" = false ->
  getattr_val (VTok self) "encoding" = Ok (VStr "csv") ->
  getattr_val (VTok self) "compression" = Ok compression ->
  is_ok (DataToken_end self (Some content) ctx) = false /\
  (compression = VNone ->
   DataToken_end self (Some content) ctx = Err TypeError).
Proof.
  intros Hw Hh Hc He Hz. unfold DataToken_end.
  rewrite Hw, Hh, !bind_Ok, Hc. cbn [negb].
  rewrite He, Hz, !bind_Ok.
  split.
  - unfold unpack. cbn [fold_left]. rewrite bind_Ok.
    change (decode (PStr content) (VStr "csv"))
      with (Ok (Some (PMapInt (split_on ","%char
                                 (join_stripped_chars (strip content)))))
            : result (option payload)).
    rewrite !bind_Ok.
    unfold decompress, get_data_xform.
    destruct (truthy compression); [|reflexivity].
    destruct compression; try reflexivity.
    destruct (dict_get globals_xform _) as [f|] eqn:Hf; [|reflexivity].
    cbn [except_KeyError]. rewrite bind_Ok.
    pose proof (xformer_rejects_map _ _
      (split_on ","%char (join_stripped_chars (strip content))) Hf) as Hr.
    by destruct (f _).
  - intros ->. reflexivity.
Qed.

(** C6 on the code: with no tile children, a text of whitespace alone
    ends in the exception ["no layer data?"], and a text that is [None]
    (what an empty element has) ends in the [AttributeError] of
    [content.strip()], which runs first. *)
Theorem data_without_text_or_tiles (self : token) (ctx : context) (w h : value) :
  getattr_val (ctx_parent ctx) "width" = Ok w ->
  getattr_val (ctx_parent ctx) "height" = Ok h ->
  getattr_val (VTok self) "tiles" = Ok (VList []) ->
  (forall content, String.eqb (strip content) "" = true ->
     DataToken_end self (Some content) ctx = Err (Exception_ "no layer data?")) /\
  DataToken_end self None ctx = Err AttributeError.
Proof.
  intros Hw Hh Ht. unfold DataToken_end. rewrite Hw, Hh, !bind_Ok. split.
  - intros content Hc. rewrite Hc. cbn [negb]. rewrite Ht. reflexivity.
  - reflexivity.
Qed.

(** ** Token.start *)

Lemma dict_get_elem {V} (d : list (string * V)) (k : string) (v : V) :
  dict_get d k = Some v -> (k, v) ∈ d.
Proof.
  induction d as [|[k' v'] d IH]; cbn; [done|].
  case_decide as Hk.
  - intros [= ->]. subst. by left.
  - intros H. right. by apply IH.
Qed.

Lemma dict_get_NoDup {V} (d : list (string * V)) (k : string) (v : V) :
  NoDup d.*1 -> (k, v) ∈ d -> dict_get d k = Some v.
Proof.
  induction d as [|[k' v'] d IH]; cbn; intros Hnd Hin.
  - by apply elem_of_nil in Hin.
  - apply NoDup_cons in Hnd as [Hk' Hnd].
    apply elem_of_cons in Hin as [[= -> ->]|Hin].
    + by rewrite decide_True.
    + rewrite decide_False; [by apply IH|].
      intros ->. apply Hk'. apply list_elem_of_fmap. by exists (k, v).
Qed.

Lemma dict_set_fresh {V} (d : list (string * V)) (k : string) (v : V) :
  k ∉ d.*1 -> dict_set d k v = d ++ [(k, v)].
Proof.
  induction d as [|[k' v'] d IH]; cbn; intros Hk; [done|].
  apply not_elem_of_cons in Hk as [Hne Hk].
  rewrite decide_False by done. by rewrite IH.
Qed.

Lemma dict_set_keys {V} (d : list (string * V)) (k : string) (v : V) :
  NoDup d.*1 -> NoDup (dict_set d k v).*1 /\
  forall k', k' ∈ (dict_set d k v).*1 <-> k' = k \/ k' ∈ d.*1.
Proof.
  induction d as [|[k' v'] d IH]; cbn; intros Hnd.
  - split; [apply NoDup_singleton|]. intros k'.
    rewrite list_elem_of_singleton, elem_of_nil. tauto.
  - apply NoDup_cons in Hnd as [Hk' Hnd]. case_decide as Hk; cbn.
    + subst k'. split; [by apply NoDup_cons|]. intros k'.
      rewrite !elem_of_cons. tauto.
    + destruct (IH Hnd) as [Hnd' Hkeys]. split.
      * apply NoDup_cons. split; [|done]. rewrite Hkeys. intros [->|?]; done.
      * intros k''. rewrite elem_of_cons, Hkeys, elem_of_cons. tauto.
Qed.

(** The keys of [attrib_types] are distinct: it is a dictionary. *)
Lemma attrib_types_NoDup (c : token_class) : NoDup (attrib_types c).*1.
Proof.
  unfold attrib_types.
  assert (forall (l : list Attr) (acc : list (string * Attr)),
            NoDup acc.*1 ->
            NoDup (fold_left (fun acc item => dict_set acc (name item) item) l acc).*1)
    as H.
  { induction l as [|a l IH]; intros acc Hacc; cbn; [done|].
    apply IH. by apply dict_set_keys. }
  apply H. constructor.
Qed.

Lemma resolve_attributes_entries (schema : list (string * Attr))
    (init : list (string * string)) :
  NoDup schema.*1 ->
  resolve_attributes schema init
  = (resolved_entry init) <$> schema.
Proof.
  unfold resolve_attributes.
  assert (forall (l : list (string * Attr)) (acc : list (string * scalar)),
    NoDup (acc.*1 ++ l.*1) ->
    fold_left (resolve_step init) l acc
    = acc ++ ((resolved_entry init) <$> l)) as H.
  { induction l as [|[k a] l IH]; intros acc Hnd.
    - by rewrite app_nil_r.
    - rewrite fmap_cons in Hnd. cbn [fold_left fst resolve_step].
      apply NoDup_app in Hnd as (Hacc & Hdisj & Hl).
      apply NoDup_cons in Hl as [Hk Hl].
      rewrite dict_set_fresh by (intros Hin; apply (Hdisj _ Hin); by left).
      rewrite IH.
      + rewrite fmap_cons. by rewrite <- app_assoc.
      + rewrite fmap_app. cbn. rewrite <- app_assoc. cbn.
        apply NoDup_app. split; [done|]. split; [|by apply NoDup_cons].
        intros x Hx. by apply Hdisj. }
  intros Hnd. by rewrite H.
Qed.

Lemma construct_attrib_types (c : token_class) :
  dict_get (tok_dict (construct c)) "attrib_types" = Some (VAttrTypes c).
Proof. by destruct c. Qed.

Lemma Token_start_construct (c : token_class) (init : list (string * string)) :
  Token_start (construct c) init
  = (attrib ← cast_attributes (attrib_types c)
               (resolve_attributes (attrib_types c) init);
     Ok (inst_set (construct c) "attrib" (VDict attrib))).
Proof. unfold Token_start. by rewrite construct_attrib_types. Qed.

Lemma cast_entry_error (schema : list (string * Attr)) (key : string)
    (a : Attr) (v : scalar) (e : exn) :
  dict_get schema key = Some a ->
  cast_entry schema (key, v) = Err e <->
  v <> SNone /\ apply_caster (cls a) v = Err e.
Proof.
  intros Hget. unfold cast_entry. rewrite Hget.
  destruct v as [|b|n|y|t]; (split; [intros H | intros [Hne H]]); try done;
    try (split; [done|]);
    destruct (apply_caster (cls a) _) as [r|e0]; try done;
    by inversion H.
Qed.

(** When the caster of some declared attribute raises on its value, the
    second loop of [Token.start] raises the error of the first caster
    that does. *)
Lemma cast_attributes_error (schema : list (string * Attr))
    (init : list (string * string)) (key : string) (a : Attr) (e : exn) :
  NoDup schema.*1 ->
  dict_get schema key = Some a ->
  resolved init key a <> SNone ->
  apply_caster (cls a) (resolved init key a) = Err e ->
  exists key' a' e',
    dict_get schema key' = Some a' /\
    resolved init key' a' <> SNone /\
    apply_caster (cls a') (resolved init key' a') = Err e' /\
    cast_attributes schema (resolve_attributes schema init) = Err e'.
Proof.
  intros Hnd Hget Hval Hcast.
  rewrite resolve_attributes_entries by done. unfold cast_attributes.
  destruct (mapR_first_error (cast_entry schema)
              ((resolved_entry init) <$> schema))
    as ([k' v'] & e' & Hin & Hf & Hm).
  { apply Exists_exists. exists (key, resolved init key a). split.
    - apply list_elem_of_fmap. exists (key, a). split; [done|].
      by apply dict_get_elem.
    - assert (cast_entry schema (key, resolved init key a) = Err e) as ->; [|done].
      by apply (cast_entry_error _ _ a). }
  apply list_elem_of_fmap in Hin as ([k'' a'] & [= -> ->] & Hin).
  exists k'', a', e'.
  pose proof (dict_get_NoDup _ _ _ Hnd Hin) as Hget'.
  apply (cast_entry_error _ _ a' _ _ Hget') in Hf as [Hne Hf].
  done.
Qed.

(** C5: for every class and every raw attribute mapping, when the caster
    of a declared attribute raises on the resolved value (the raw value,
    or the default; [None] is never cast), [start] raises: the error is
    the one of the first caster that fails, in the order of the schema,
    and no attribute mapping with a default in its place is produced. *)
Theorem start_cast_failure_raises (c : token_class)
    (init : list (string * string)) (key : string) (a : Attr) (e : exn) :
  dict_get (attrib_types c) key = Some a ->
  resolved init key a <> SNone ->
  apply_caster (cls a) (resolved init key a) = Err e ->
  exists key' a' e',
    dict_get (attrib_types c) key' = Some a' /\
    resolved init key' a' <> SNone /\
    apply_caster (cls a') (resolved init key' a') = Err e' /\
    start (construct c) init = Err e'.
Proof.
  intros Hget Hval Hcast.
  destruct (cast_attributes_error _ init key a e (attrib_types_NoDup c)
              Hget Hval Hcast) as (key' & a' & e' & H1 & H2 & H3 & H4).
  exists key', a', e'. repeat split; try done.
  assert (Token_start (construct c) init = Err e') as HT.
  { by rewrite Token_start_construct, H4. }
  unfold start. change (tok_class (construct c)) with c.
  destruct c; try exact HT.
  unfold PropertyToken_start. by rewrite HT.
Qed.

(** ** Attribute lookup *)

(** The tags of the [add_] methods of a class are the keys of its table
    of methods. *)
Lemma class_add_table_tags (c : token_class) :
  (class_add_table c).*1 = class_add_tags c.
Proof. by destruct c. Qed.

(** None of them is bound by a class body. *)
Lemma static_names_not_on_class (c : token_class) :
  Forall (fun name => class_has c name = false) static_names.
Proof. destruct c; repeat constructor. Qed.

(** C10: for every token whose [attrib] is a dictionary, reading a name
    that is neither in the instance dictionary nor on the class, and that
    is no key of [attrib], raises [AttributeError].  The properties take no
    part in the lookup: nothing is assumed of them, so this holds also when
    a property of that name exists. *)
Theorem getattr_never_reads_properties (self : token) (name : string)
    (attrib : list (dkey * value)) :
  dict_get (tok_dict self) "attrib" = Some (VDict attrib) ->
  dict_get (tok_dict self) name = None ->
  class_has (tok_class self) name = false ->
  dict_get attrib (KStr name) = None ->
  Token___getattr__ self name = Err AttributeError /\
  getattr (VTok self) name = Err AttributeError.
Proof.
  intros Hattrib Hinst Hclass Hkey.
  assert (Token___getattr__ self name = Err AttributeError) as HG.
  { unfold Token___getattr__. by rewrite Hattrib, Hkey. }
  split; [done|].
  destruct self as [c d]. cbn in *. by rewrite Hinst, Hclass, HG.
Qed.

(** ** The registry and the driver *)

Lemma run_app (st : state) (before after : list event) :
  run st (before ++ after) = (st' ← run st before; run st' after).
Proof.
  revert st. induction before as [|ev before IH]; intros st; [done|].
  cbn [app run]. destruct (step st ev) as [st'|e]; [|done].
  rewrite !bind_Ok. apply IH.
Qed.

(** C9: a feature whose name with [Token] appended is no class of the
    module makes [get_processor] raise [UnsupportedFeature(feature)]; the
    start event that carries it ends the turn of the loop with that error,
    before any token is built, started or pushed; [slurp] raises it
    wherever the event stands in the stream and has no root: at top level,
    and after any events that went well. *)
Theorem unknown_tag_is_unsupported (feature : string) :
  dict_get globals_class (feature +:+ "Token") = None ->
  get_processor feature = Err (UnsupportedFeature [feature]) /\
  (forall st attrib text,
     step st (mkEvent "start" feature attrib text)
     = Err (UnsupportedFeature [feature])) /\
  (forall attrib text rest,
     slurp (mkEvent "start" feature attrib text :: rest)
     = Err (UnsupportedFeature [feature])) /\
  (forall before attrib text rest,
     is_ok (run initial_state before) = true ->
     slurp (before ++ mkEvent "start" feature attrib text :: rest)
     = Err (UnsupportedFeature [feature])).
Proof.
  intros Habsent.
  assert (get_processor feature = Err (UnsupportedFeature [feature])) as HG.
  { unfold get_processor. by rewrite Habsent. }
  assert (forall st attrib text,
            step st (mkEvent "start" feature attrib text)
            = Err (UnsupportedFeature [feature])) as HS.
  { intros st attrib text. unfold step. cbn [ev_kind ev_tag String.eqb Ascii.eqb].
    change (String.eqb "start" "start") with true. cbn match.
    by rewrite HG. }
  split; [done|]. split; [done|]. split.
  - intros attrib text rest. unfold slurp. cbn [run]. by rewrite HS.
  - intros before attrib text rest Hok. unfold slurp. rewrite run_app.
    destruct (run initial_state before) as [st|e]; [|done].
    rewrite bind_Ok. cbn [run]. by rewrite HS.
Qed.

(** C2 on the code: [slurp] never hands a node to its caller.  Whenever it
    returns, the value is [None], and what it did with the last token is
    print its projection.  On the document of one empty map element the
    loop ends with the sentinel alone on the stack and the finalized root
    in [token], and the call returns [None]. *)
Theorem slurp_returns_None :
  (forall events,
     match slurp events with
     | Ok out => returned out = VNone
     | Err _ => True
     end) /\
  exists root obj,
    start (construct MapToken) [] = Ok root /\
    run initial_state root_only
    = Ok (mkState [VNone] (VTok root) (mkContext VNone)) /\
    as_object (VTok root) = Ok obj /\
    slurp root_only = Ok (mkOutcome obj VNone).
Proof.
  split.
  - intros events. unfold slurp.
    destruct (run initial_state events) as [st|e]; [|done].
    rewrite bind_Ok. by destruct (as_object (st_token st)).
  - eexists. eexists.
    split; [vm_compute; reflexivity|].
    split; [vm_compute; reflexivity|].
    split; vm_compute; reflexivity.
Qed.

End Properties.

(** * The claims at concrete inputs *)

Section Examples.
#[local] Existing Instance exact_floats.
#[local] Existing Instance base64_only.

Lemma rowify_checks_no_count_witness :
  rowify (VInt <$> [1; 2; 3]) (VInt 1) (VInt 1) = Ok (rows_of [1; 2; 3] 1 1) /\
  flatten_rows (rows_of [1; 2; 3] 1 1) = [1] /\
  DataToken_end three_tiles (Some " ")
    (mkContext (VTok (started LayerToken [("width", "1"); ("height", "1")])))
  = Ok (inst_set three_tiles "data" (rows_of [1; 2; 3] 1 1)).
Proof.
  destruct (rowify_checks_no_count [1; 2; 3] 1 1) as (Hrows & Hflat & Hend);
    [lia | lia | repeat constructor; unfold fits_unsigned_short; lia |].
  split; [exact Hrows|]. split; [exact Hflat|].
  eapply Hend; [reflexivity | reflexivity | reflexivity | reflexivity | | reflexivity].
  discriminate.
Defined.

(** C4, as the claim has it, fails: three tile children in a layer of one
    by one are no error, the data is the single row of the first id; and
    one id for a grid of two by two gives a short row and an empty one. *)
Lemma count_mismatch_is_no_error :
  decode_tile_children "1" "1" ["1"; "2"; "3"] (Some " ")
  = Ok (VTuple [VArrayH [1]]) /\
  rowify [VInt 1; VInt 2; VInt 3] (VInt 1) (VInt 1) = Ok (VTuple [VArrayH [1]]) /\
  rowify [VInt 1] (VInt 2) (VInt 2) = Ok (VTuple [VArrayH [1]; VArrayH []]).
Proof. repeat split. Qed.

Lemma rowify_flatten_roundtrip_witness :
  exists rows,
    rowify (VInt <$> [5; 0]) (VInt 2) (VInt 1) = Ok rows /\
    flatten_rows rows = [5; 0].
Proof.
  apply (rowify_flatten_roundtrip [5; 0] 2 1); [lia | lia | reflexivity |].
  repeat constructor; unfold fits_unsigned_short; lia.
Defined.

(** C7, as the claim has it, fails: a tile id above 65535 is a decoded
    tile id, and the array of unsigned shorts refuses it; the sequence of
    that one id, with [w = h = 1], is not reshaped at all. *)
Lemma rowify_refuses_large_id :
  decode_gid 65536 = 65536 /\
  Z.of_nat (length [65536]) = 1 * 1 /\
  rowify [VInt 65536] (VInt 1) (VInt 1) = Err OverflowError.
Proof. repeat split. Qed.

Lemma csv_data_raises_witness :
  unpack (PStr "1,2") (VStr "csv") VNone = Ok (PMapInt ["1"; "2"]) /\
  force_map_int ["1"; "2"] = Ok [1; 2] /\
  DataToken_end (started DataToken [("encoding", "csv")]) (Some "1,2")
    (mkContext (VTok (started LayerToken [("width", "2"); ("height", "1")])))
  = Err TypeError.
Proof.
  split; [reflexivity|]. split; [reflexivity|].
  apply (csv_data_raises (started DataToken [("encoding", "csv")])
           (mkContext (VTok (started LayerToken [("width", "2"); ("height", "1")])))
           "1,2" (VInt 2) (VInt 1) VNone);
    reflexivity.
Defined.

Lemma data_without_text_or_tiles_witness :
  DataToken_end (started DataToken []) (Some "
   ")
    (mkContext (VTok (started LayerToken [("width", "1"); ("height", "1")])))
  = Err (Exception_ "no layer data?") /\
  DataToken_end (started DataToken []) None
    (mkContext (VTok (started LayerToken [("width", "1"); ("height", "1")])))
  = Err AttributeError.
Proof.
  destruct (data_without_text_or_tiles (started DataToken [])
              (mkContext (VTok (started LayerToken [("width", "1"); ("height", "1")])))
              (VInt 1) (VInt 1) eq_refl eq_refl eq_refl) as [Hblank Hnone].
  split; [|exact Hnone].
  apply Hblank. reflexivity.
Defined.

Lemma start_cast_failure_raises_witness :
  dict_get (attrib_types MapToken) "width"
  = Some (mkAttr "width" C_int SNone "map width in tiles") /\
  apply_caster C_int (SStr "abc") = Err ValueError /\
  start (construct MapToken) [("width", "abc")] = Err ValueError.
Proof.
  split; [reflexivity|]. split; [reflexivity|].
  destruct (start_cast_failure_raises MapToken [("width", "abc")] "width"
              (mkAttr "width" C_int SNone "map width in tiles") ValueError
              eq_refl ltac:(discriminate) eq_refl)
    as (key' & a' & e' & _ & _ & _ & Hstart).
  rewrite Hstart. vm_compute in Hstart. by inversion Hstart.
Defined.

Lemma unknown_tag_is_unsupported_witness :
  get_processor "Wangsets" = Err (UnsupportedFeature ["Wangsets"]) /\
  slurp [mkEvent "start" "Wangsets" [] None]
  = Err (UnsupportedFeature ["Wangsets"]).
Proof.
  destruct (unknown_tag_is_unsupported "Wangsets" eq_refl) as (HG & _ & HS & _).
  split; [exact HG | apply HS].
Defined.

Lemma getattr_never_reads_properties_witness :
  getattr_val (VTok object_with_hp) "properties" = Ok (VDict [(KStr "hp", VInt 12)]) /\
  getattr_val (VTok object_with_hp) "name" = Ok (VStr "hero") /\
  Token___getattr__ object_with_hp "hp" = Err AttributeError /\
  getattr (VTok object_with_hp) "hp" = Err AttributeError.
Proof.
  split; [reflexivity|]. split; [reflexivity|].
  eapply (getattr_never_reads_properties object_with_hp "hp"); reflexivity.
Defined.

(** ** The model on the examples of the spec *)

(** One map of two by one, one layer, two tile children of gids 5 and 0:
    the grid is the single row (5, 0). *)
Example tile_children_grid :
  decode_tile_children "2" "1" ["5"; "0"] (Some "
  ")
  = Ok (VTuple [VArrayH [5; 0]]).
Proof. reflexivity. Qed.

(** The same grid from base64 text: eight bytes, two little-endian
    words, the first with the horizontal flip set. *)
Example base64_grid :
  (data ← DataToken_end (started DataToken [("encoding", "base64")])
            (Some " BQAAgAAAAAA= ")
            (mkContext (VTok (started LayerToken [("width", "2"); ("height", "1")])));
   getattr_val (VTok data) "data")
  = Ok (VTuple [VArrayH [5; 0]]).
Proof. reflexivity. Qed.

(** Seven bytes are no sequence of words: [unpack_from] raises on the
    last group. *)
Example base64_short_buffer :
  DataToken_end (started DataToken [("encoding", "base64")]) (Some "BQAAAAAAAA==")
    (mkContext (VTok (started LayerToken [("width", "2"); ("height", "1")])))
  = Err StructError.
Proof. reflexivity. Qed.

(** A polygon of an object at (10, 10): the points are moved and the
    object is closed; a polyline leaves it open. *)
Example polygon_is_moved :
  let ten := ExactFloat.mk 10 0 in
  let fifteen := ExactFloat.mk 15 0 in
  let object := started ObjectToken [("x", "10"); ("y", "10")] in
  let shape c := VTok (started c [("points", "0,0 5,0 5,5")]) in
  (o ← combine object (shape PolygonToken) "polygon";
   pts ← getattr_val (VTok o) "points";
   closed ← getattr_val (VTok o) "closed";
   Ok (pts, closed))
  = Ok (VTuple [VTuple [VFloat ten; VFloat ten];
                VTuple [VFloat fifteen; VFloat ten];
                VTuple [VFloat fifteen; VFloat fifteen]], VBool true) /\
  (o ← combine object (shape PolylineToken) "polyline";
   getattr_val (VTok o) "closed")
  = Ok (VBool false).
Proof. split; reflexivity. Qed.

(** A default is cast like a raw value: [visible] is the boolean
    [True], and an absent attribute without default stays [None]. *)
Example defaults_are_cast :
  getattr_val (VTok (started LayerToken [])) "visible" = Ok (VBool true) /\
  getattr_val (VTok (started LayerToken [])) "name" = Ok (VStr "TileLayer") /\
  getattr_val (VTok (started LayerToken [])) "width" = Ok VNone /\
  getattr_val (VTok (started LayerToken [("width", " 12 "); ("zoom", "2")])) "width"
  = Ok (VInt 12).
Proof. repeat split. Qed.

(** A parent without the [add_] method of the child's tag. *)
Example combine_unsupported :
  combine (started LayerToken []) (VTok (started ObjectToken [])) "object"
  = Err (UnsupportedFeature ["LayerToken"; "object"]) /\
  combine (started MapToken []) (VTok (started GroupToken [])) "group"
  = Err (UnsupportedFeature []).
Proof. split; reflexivity. Qed.

End Examples.
